(** * Local Time Notifier: the reminder scheduler of [src/main.ts]

    The plugin keeps one pending reminder: [scheduleNotification] arms a
    timeout and writes a record to [localStorage], the timeout's callback
    shows the notification, [restoreScheduledNotifications] re-arms the
    timeout from the record when the plugin is loaded, and the settings
    tab has a button that cancels everything.

    The embedding is a state-and-exception monad over a [world] that holds
    the plugin instance's two fields, the host's table of armed timeouts,
    [localStorage], the wall clock and what was shown to the user. *)

From Stdlib Require Import ZArith String Ascii SpecFloat Lia.
From stdpp Require Import gmap strings list fin_maps.
Local Open Scope Z_scope.

(** ** JavaScript data *)

(** Time values and their differences: an integer number of milliseconds,
    or NaN. They are doubles in JavaScript, exact on the integers that
    occur here. *)
Inductive number := NaN | Num (z : Z).

Definition num_add (a b : number) : number :=
  match a, b with
  | Num x, Num y => Num (x + y)
  | _, _ => NaN
  end.

Definition num_sub (a b : number) : number :=
  match a, b with
  | Num x, Num y => Num (x - y)
  | _, _ => NaN
  end.

(** [a <= b] and [a > b]: every comparison with NaN is false. *)
Definition num_leb (a b : number) : bool :=
  match a, b with
  | Num x, Num y => x <=? y
  | _, _ => false
  end.

Definition num_gtb (a b : number) : bool :=
  match a, b with
  | Num x, Num y => y <? x
  | _, _ => false
  end.

(** A [Date] wraps a time value; the time value of an Invalid Date is NaN. *)
Record Date := MkDate { getTime : number }.

Definition At (t : Z) : Date := MkDate (Num t).
Definition InvalidDate : Date := MkDate NaN.

(** The largest magnitude of a time value (ECMA-262, 21.4.1.1). *)
Definition maxTime : Z := 8640000000000000.

Definition valid_time (t : Z) : Prop := - maxTime <= t <= maxTime.

Definition wf_Date (d : Date) : bool :=
  match getTime d with
  | NaN => true
  | Num t => (- maxTime <=? t) && (t <=? maxTime)
  end.

(** [new Date(n)] for a number [n]: a time value out of range gives an
    Invalid Date. *)
Definition Date_of_number (n : number) : Date :=
  MkDate match n with
         | Num t => if (- maxTime <=? t) && (t <=? maxTime) then Num t else NaN
         | NaN => NaN
         end.

(** What [JSON.parse] can return, and [undefined] for a property that is
    not there. Numbers are IEEE doubles. [VObj] lists the own properties of
    a plain object, each key once. *)
#[warnings="-register-all"]
Inductive value :=
| VUndefined
| VNull
| VBool (b : bool)
| VNum (x : spec_float)
| VStr (s : string)
| VArr (items : list value)
| VObj (props : list (string * value)).

Inductive error := RangeError | TypeError | SyntaxError.

(** [TimeClip] of a double (ECMA-262, 21.4.1.31): NaN unless finite and at
    most [maxTime] in magnitude, else truncated towards zero. *)
Definition TimeClip (x : spec_float) : number :=
  match x with
  | S754_zero _ => Num 0
  | S754_infinity _ | S754_nan => NaN
  | S754_finite s m e =>
      let exceeds :=
        if 0 <=? e then maxTime <? Z.pos m * 2 ^ e
        else maxTime * 2 ^ (- e) <? Z.pos m in
      if exceeds then NaN
      else
        let a := if 0 <=? e then Z.pos m * 2 ^ e else Z.pos m / 2 ^ (- e) in
        Num (if s then - a else a)
  end.

(** ** The JavaScript runtime

    The built-ins the plugin calls and whose results it does not control. *)
Class Runtime := {
  (** [Date.prototype.toISOString] at a valid time value *)
  toISOString_text : Z -> string;
  (** [Date.parse] *)
  Date_parse : string -> number;
  (** [JSON.stringify] of a plain object *)
  JSON_stringify : value -> string;
  (** [JSON.parse]; [None] when it throws a SyntaxError *)
  JSON_parse : string -> option value;
  (** [Number.prototype.toString] *)
  Number_toString : spec_float -> string;
}.

(** The record that [saveToLocalStorage] serialises. *)
Definition persisted (dateTime message scheduledAt : string) : value :=
  VObj [("dateTime", VStr dateTime); ("message", VStr message);
        ("scheduledAt", VStr scheduledAt)]%string.

(** What ECMA-262 promises about these built-ins: [Date.parse] reads back
    what [toISOString] wrote, [JSON.parse] reads back the serialised record,
    and the empty string is not JSON. *)
Class RuntimeLaws (rt : Runtime) : Prop := {
  Date_parse_toISOString :
    forall t, valid_time t -> Date_parse (toISOString_text t) = Num t;
  JSON_parse_stringify :
    forall a b c,
      JSON_parse (JSON_stringify (persisted a b c)) = Some (persisted a b c);
  JSON_parse_empty : JSON_parse "" = None;
}.

(** ** The world *)

(** The two closures passed to [setTimeout]: the one built by
    [scheduleNotification] captures [message], the one built by
    [restoreScheduledNotifications] captures [data]. *)
Inductive callback :=
| ScheduledCallback (message : string)
| RestoredCallback (data : value).

(** An armed timeout: the callback, the delay handed to [setTimeout] and the
    time of the call. *)
Record timeout := MkTimeout {
  handler : callback;
  delay : number;
  armedAt : Z;
}.

Inductive notice :=
| NoticeChooseFuture              (* 'Пожалуйста, выберите будущее время' *)
| NoticeSetFor (d : Date)         (* `Уведомление установлено на ${...}` *)
| NoticeSetForTime (d : Date)     (* quick-5min-reminder *)
| NoticeSetForTomorrow (d : Date) (* tomorrow-reminder *)
| NoticeBell (text : string)      (* `🔔 ${message}`, shown for 10000 ms *)
| NoticeAllCancelled.             (* 'Все уведомления отменены' *)

Inductive logline :=
| LogLoaded
| LogUnloaded
| LogRestored (d : Date).

(** What [getNextNotificationInfo] returns. *)
Inductive info :=
| NextNotification (d : Date)   (* `Следующее уведомление: ${...}` *)
| NoneScheduled.                (* 'Нет запланированных уведомлений' *)

Inductive output :=
| ShowNotice (n : notice)
| OsNotification (body : string)
| EditorInsert (timestamp : Date) (message : string)
| ConsoleLog (l : logline)
| ConsoleError (e : error)
| Display (i : info).

Record world := MkWorld {
  (** fields of the plugin instance *)
  timer : option positive;
  nextNotificationTime : option Date;
  (** the host *)
  clock : Z;
  timers : gmap positive timeout;
  nextHandle : positive;
  localStorage : gmap string string;
  notificationGranted : bool;
  activeMarkdownView : bool;
  out : list output;
}.

Definition with_timer (x : option positive) (w : world) : world :=
  MkWorld x (nextNotificationTime w) (clock w) (timers w) (nextHandle w)
          (localStorage w) (notificationGranted w) (activeMarkdownView w) (out w).

Definition with_next (x : option Date) (w : world) : world :=
  MkWorld (timer w) x (clock w) (timers w) (nextHandle w)
          (localStorage w) (notificationGranted w) (activeMarkdownView w) (out w).

Definition with_clock (x : Z) (w : world) : world :=
  MkWorld (timer w) (nextNotificationTime w) x (timers w) (nextHandle w)
          (localStorage w) (notificationGranted w) (activeMarkdownView w) (out w).

Definition with_timers (x : gmap positive timeout) (w : world) : world :=
  MkWorld (timer w) (nextNotificationTime w) (clock w) x (nextHandle w)
          (localStorage w) (notificationGranted w) (activeMarkdownView w) (out w).

Definition with_nextHandle (x : positive) (w : world) : world :=
  MkWorld (timer w) (nextNotificationTime w) (clock w) (timers w) x
          (localStorage w) (notificationGranted w) (activeMarkdownView w) (out w).

Definition with_localStorage (x : gmap string string) (w : world) : world :=
  MkWorld (timer w) (nextNotificationTime w) (clock w) (timers w) (nextHandle w)
          x (notificationGranted w) (activeMarkdownView w) (out w).

Definition with_out (x : list output) (w : world) : world :=
  MkWorld (timer w) (nextNotificationTime w) (clock w) (timers w) (nextHandle w)
          (localStorage w) (notificationGranted w) (activeMarkdownView w) x.

(** ** Computations: state that survives an exception *)

Inductive outcome (A : Type) :=
| Ret (a : A)
| Throw (e : error).
Arguments Ret {A} a.
Arguments Throw {A} e.

Definition M (A : Type) : Type := world -> outcome A * world.

Definition ret {A} (a : A) : M A := fun w => (Ret a, w).

Definition bind {A B} (m : M A) (k : A -> M B) : M B :=
  fun w =>
    match m w with
    | (Ret a, w') => k a w'
    | (Throw e, w') => (Throw e, w')
    end.

Definition throw {A} (e : error) : M A := fun w => (Throw e, w).

(** [try { body } catch (e) { handle e }] *)
Definition try_catch {A} (body : M A) (handle : error -> M A) : M A :=
  fun w =>
    match body w with
    | (Ret a, w') => (Ret a, w')
    | (Throw e, w') => handle e w'
    end.

#[global] Instance M_ret : MRet M := @ret.
#[global] Instance M_bind : MBind M := fun A B k m => bind m k.

(** The state a computation leaves behind, returned or thrown. *)
Definition exec {A} (m : M A) (w : world) : world := snd (m w).

(** ** Host primitives

    [scheduleNotification], [restoreScheduledNotifications] and a callback
    each run to their end at one reading of the clock, and [localStorage] has
    room for the record. *)

(** [new Date()] *)
Definition new_Date : M Date := fun w => (Ret (At (clock w)), w).

(** The clock moves on by [d] milliseconds between two statements. *)
Definition pass (d : Z) : M unit :=
  fun w => (Ret tt, with_clock (clock w + d) w).

Definition get_timer : M (option positive) := fun w => (Ret (timer w), w).
Definition set_timer (x : option positive) : M unit :=
  fun w => (Ret tt, with_timer x w).

Definition get_next : M (option Date) :=
  fun w => (Ret (nextNotificationTime w), w).
Definition set_next (x : option Date) : M unit :=
  fun w => (Ret tt, with_next x w).

(** [setTimeout(cb, d)] arms a timeout under a handle that is not in use and
    returns the handle; handles are positive, hence truthy. *)
Definition setTimeout (cb : callback) (d : number) : M positive :=
  fun w =>
    let h := nextHandle w in
    (Ret h,
     with_nextHandle (Pos.succ h)
       (with_timers (<[h := MkTimeout cb d (clock w)]> (timers w)) w)).

(** [clearTimeout(h)]; a handle that is not armed is ignored. *)
Definition clearTimeout (h : positive) : M unit :=
  fun w => (Ret tt, with_timers (delete h (timers w)) w).

Definition getItem (k : string) : M (option string) :=
  fun w => (Ret (localStorage w !! k), w).
Definition setItem (k v : string) : M unit :=
  fun w => (Ret tt, with_localStorage (<[k := v]> (localStorage w)) w).
Definition removeItem (k : string) : M unit :=
  fun w => (Ret tt, with_localStorage (delete k (localStorage w)) w).

Definition emit (o : output) : M unit :=
  fun w => (Ret tt, with_out (out w ++ [o]) w).

Definition granted : M bool := fun w => (Ret (notificationGranted w), w).
Definition getActiveViewOfType : M bool :=
  fun w => (Ret (activeMarkdownView w), w).

(** The key of the persisted record. *)
Definition KEY : string := "obsidian-time-notifier".

Section Plugin.

Context {rt : Runtime}.

(** ** Conversions done by the language *)

(** [d.toISOString()] throws a RangeError on an Invalid Date. *)
Definition toISOString (d : Date) : M string :=
  match getTime d with
  | NaN => throw RangeError
  | Num t => mret (toISOString_text t)
  end.

(** [JSON.parse(s)] *)
Definition parse (s : string) : M value :=
  match JSON_parse s with
  | Some v => mret v
  | None => throw SyntaxError
  end.

(** A conversion that fails throws a TypeError. *)
Definition or_TypeError {A} (o : option A) : M A :=
  match o with
  | Some a => mret a
  | None => throw TypeError
  end.

(** Whether a plain object has an own property [k]. *)
Definition has_own (k : string) (props : list (string * value)) : bool :=
  existsb (fun p => String.eqb k (fst p)) props.

(** The string a template literal makes of a value; [None] is a TypeError.
    A plain object gives ["[object Object]"], unless it has an own property
    [toString]: what [JSON.parse] put there cannot be called, and
    [valueOf] returns the object itself. An array joins its elements with
    commas, [null] counting as empty. *)
Fixpoint to_string (v : value) : option string :=
  match v with
  | VUndefined => Some "undefined"%string
  | VNull => Some "null"%string
  | VBool true => Some "true"%string
  | VBool false => Some "false"%string
  | VNum x => Some (Number_toString x)
  | VStr s => Some s
  | VArr items =>
      (fix join (l : list value) : option string :=
         match l with
         | [] => Some ""%string
         | x :: rest =>
             let element :=
               match x with
               | VUndefined | VNull => Some ""%string
               | _ => to_string x
               end in
             match rest with
             | [] => element
             | _ =>
                 match element, join rest with
                 | Some s, Some r => Some (s ++ "," ++ r)%string
                 | _, _ => None
                 end
             end
         end) items
  | VObj props =>
      if has_own "toString" props then None
      else Some "[object Object]"%string
  end.

Definition ToString (v : value) : M string := or_TypeError (to_string v).

(** [new Date(v)] for one argument (ECMA-262, 21.4.2.1): a string is parsed,
    an array or object is first converted to a string, anything else is
    converted to a number and clipped. *)
Definition date_of (v : value) : option Date :=
  match v with
  | VUndefined => Some InvalidDate
  | VNull => Some (At 0)
  | VBool true => Some (At 1)
  | VBool false => Some (At 0)
  | VNum x => Some (MkDate (TimeClip x))
  | VStr s => Some (MkDate (Date_parse s))
  | VArr _ | VObj _ =>
      match to_string v with
      | Some s => Some (MkDate (Date_parse s))
      | None => None
      end
  end.

Definition Date_of (v : value) : M Date := or_TypeError (date_of v).

Fixpoint lookup_prop (k : string) (props : list (string * value)) : value :=
  match props with
  | [] => VUndefined
  | (k', v) :: rest => if String.eqb k k' then v else lookup_prop k rest
  end.

(** [data.k] for [k] one of [dateTime] and [message], which no prototype
    defines: a TypeError on [null], the own property of a plain object,
    [undefined] on everything else. *)
Definition get_prop (data : value) (k : string) : option value :=
  match data with
  | VUndefined | VNull => None
  | VObj props => Some (lookup_prop k props)
  | _ => Some VUndefined
  end.

Definition Get (data : value) (k : string) : M value :=
  or_TypeError (get_prop data k).

(** ** The plugin *)

(** [appendToActiveNote], lines 138-150 *)
Definition appendToActiveNote (message : string) : M unit :=
  activeView ← getActiveViewOfType;
  if activeView : bool then
    timestamp ← new_Date;
    emit (EditorInsert timestamp message)
  else mret tt.

(** [showNotification], lines 121-135. The restored callback passes
    [data.message], which is whatever the record holds. *)
Definition showNotification (message : value) : M unit :=
  text ← ToString message;
  emit (ShowNotice (NoticeBell text));;
  g ← granted;
  (if g : bool then emit (OsNotification text) else mret tt);;
  appendToActiveNote text.

(** [saveToLocalStorage], lines 153-160 *)
Definition saveToLocalStorage (dateTime : Date) (message : string) : M unit :=
  dt ← toISOString dateTime;
  now ← new_Date;
  scheduledAt ← toISOString now;
  setItem KEY (JSON_stringify (persisted dt message scheduledAt)).

(** [scheduleNotification], lines 91-118 *)
Definition scheduleNotification (dateTime : Date) (message : string) : M unit :=
  now ← new_Date;
  let delay := num_sub (getTime dateTime) (getTime now) in
  if num_leb delay (Num 0) then
    emit (ShowNotice NoticeChooseFuture)
  else
    set_next (Some dateTime);;
    t ← get_timer;
    match t with
    | Some h => clearTimeout h
    | None => mret tt
    end;;
    h ← setTimeout (ScheduledCallback message) delay;
    set_timer (Some h);;
    saveToLocalStorage dateTime message;;
    emit (ShowNotice (NoticeSetFor dateTime)).

(** [restoreScheduledNotifications], lines 163-189. An absent item and the
    empty string are both falsy. *)
Definition restoreScheduledNotifications : M unit :=
  saved ← getItem KEY;
  match saved with
  | None => mret tt
  | Some s =>
      if String.eqb s "" then mret tt
      else
        try_catch
          (data ← parse s;
           d ← Get data "dateTime";
           dateTime ← Date_of d;
           now ← new_Date;
           if num_gtb (getTime dateTime) (getTime now) then
             let delay := num_sub (getTime dateTime) (getTime now) in
             set_next (Some dateTime);;
             h ← setTimeout (RestoredCallback data) delay;
             set_timer (Some h);;
             emit (ConsoleLog (LogRestored dateTime))
           else
             removeItem KEY)
          (fun e => emit (ConsoleError e))
  end.

(** What a timeout's callback does when the host runs it: lines 109-112 and
    lines 175-179. *)
Definition run_callback (cb : callback) : M unit :=
  match cb with
  | ScheduledCallback message =>
      showNotification (VStr message);;
      set_next None
  | RestoredCallback data =>
      message ← Get data "message";
      showNotification message;;
      set_next None;;
      removeItem KEY
  end.

(** [getNextNotificationInfo], lines 192-197; a [Date] is truthy. *)
Definition getNextNotificationInfo : M info :=
  next ← get_next;
  match next with
  | Some d => mret (NextNotification d)
  | None => mret NoneScheduled
  end.

(** [display], lines 280-352, re-renders the settings tab, which shows
    [getNextNotificationInfo]. *)
Definition display : M unit :=
  i ← getNextNotificationInfo;
  emit (Display i).

(** The click handler of the cancel button, lines 342-350. *)
Definition cancel : M unit :=
  t ← get_timer;
  match t with
  | Some h =>
      clearTimeout h;;
      set_timer None;;
      set_next None;;
      removeItem KEY;;
      emit (ShowNotice NoticeAllCancelled);;
      display
  | None => mret tt
  end.

(** [ScheduleNotificationModal.schedule], lines 265-268, with [onSubmit]
    bound to [scheduleNotification] as in [onload]. *)
Definition modal_schedule (date time message : string) : M unit :=
  scheduleNotification (MkDate (Date_parse (date ++ "T" ++ time))) message.

(** The two quick commands of [onload], lines 42-63. Each reads the clock at
    its first line, and [scheduleNotification] reads it again at line 92;
    [elapsed] is the time that passes between the two readings. *)
Definition quick_5min_reminder (elapsed : Z) : M unit :=
  now ← new_Date;
  let notifyTime := Date_of_number (num_add (getTime now) (Num (5 * 60000))) in
  pass elapsed;;
  scheduleNotification notifyTime "Напоминание через 5 минут!";;
  emit (ShowNotice (NoticeSetForTime notifyTime)).

Definition tomorrow_reminder (elapsed : Z) : M unit :=
  now ← new_Date;
  let tomorrow :=
    Date_of_number (num_add (getTime now) (Num (24 * 60 * 60000))) in
  pass elapsed;;
  scheduleNotification tomorrow "Ежедневное напоминание";;
  emit (ShowNotice (NoticeSetForTomorrow tomorrow)).

(** [onload], lines 20-72, past the registration of commands. *)
Definition onload : M unit :=
  restoreScheduledNotifications;;
  emit (ConsoleLog LogLoaded).

(** [onunload], lines 74-80 *)
Definition onunload : M unit :=
  t ← get_timer;
  match t with
  | Some h => clearTimeout h
  | None => mret tt
  end;;
  emit (ConsoleLog LogUnloaded).

End Plugin.

(** ** The plugin in its host

    What can happen to a running plugin. Time passes, the user schedules or
    cancels, the host runs the callback of a timeout that is due, the plugin
    is reloaded, or the application is restarted and loads the plugin in a
    new process. The clock never goes back. The host honours a delay that
    its timer can hold: it runs the callback no earlier than that delay after
    [setTimeout]. The timer holds a delay of up to [maxDelay] milliseconds,
    which is 2^31 - 1, a little under 25 days. *)

Inductive event :=
| Schedule (dateTime : Date) (message : string)
| ModalSchedule (date time message : string)
| Quick5 (elapsed : Z)
| Tomorrow (elapsed : Z)
| Cancel
| Fire (h : positive)
| Tick (d : Z)
| Reload
| Restart.

Definition maxDelay : Z := 2147483647.

(** The earliest time at which the host runs a timeout; a delay that is NaN
    or negative counts as zero. A delay above [maxDelay] does not fit the
    timer: a browser keeps its low 32 bits and Node.js replaces it by one
    millisecond, so the callback runs long before the delay has passed; here
    it may run at any time from the call on. *)
Definition due (t : timeout) : Z :=
  armedAt t + match delay t with
              | Num d => if d <=? maxDelay then Z.max 0 d else 0
              | NaN => 0
              end.

(** The time a timeout was armed for. *)
Definition target (t : timeout) : number :=
  num_add (Num (armedAt t)) (delay t).
Arguments target : simpl never.

(** The delay of the timeout is one the host's timer can hold. *)
Definition fits (t : timeout) : bool :=
  match delay t with
  | Num d => d <=? maxDelay
  | NaN => true
  end.

(** A plugin instance as its constructor leaves it, lines 17-18. *)
Definition new_instance (w : world) : world :=
  with_timer None (with_next None w).

Section Host.

Context {rt : Runtime}.

(** The host runs the callback of timeout [h], which is then no longer
    armed. An exception in the callback is reported by the host. *)
Definition fire (h : positive) (w : world) : option world :=
  match timers w !! h with
  | Some t =>
      if due t <=? clock w
      then Some (exec (run_callback (handler t))
                      (with_timers (delete h (timers w)) w))
      else None
  | None => None
  end.

(** One event; [None] when it cannot happen in [w]. Dates handed to
    [scheduleNotification] are JavaScript dates: invalid, or within
    [maxTime] of the epoch. The time that passes inside a quick command is
    not negative. *)
Definition step (e : event) (w : world) : option world :=
  match e with
  | Schedule d m =>
      if wf_Date d then Some (exec (scheduleNotification d m) w) else None
  | ModalSchedule date time m =>
      if wf_Date (MkDate (Date_parse (date ++ "T" ++ time)))
      then Some (exec (modal_schedule date time m) w) else None
  | Quick5 e =>
      if 0 <=? e then Some (exec (quick_5min_reminder e) w) else None
  | Tomorrow e =>
      if 0 <=? e then Some (exec (tomorrow_reminder e) w) else None
  | Cancel => Some (exec cancel w)
  | Fire h => fire h w
  | Tick d => if 0 <=? d then Some (with_clock (clock w + d) w) else None
  | Reload => Some (exec onload (new_instance (exec onunload w)))
  | Restart =>
      Some (exec onload
              (new_instance (with_nextHandle 1%positive (with_timers ∅ w))))
  end.

Fixpoint run (es : list event) (w : world) : option world :=
  match es with
  | [] => Some w
  | e :: es' =>
      match step e w with
      | Some w' => run es' w'
      | None => None
      end
  end.



(** The application starts: nothing is armed, [localStorage] holds what an
    earlier process left, and the plugin is loaded. *)
Definition boot (ls : gmap string string) (now : Z) (granted active : bool)
  : world :=
  exec onload (MkWorld None None now ∅ 1%positive ls granted active []).

End Host.

(** ** States the operations lead to *)

(** [scheduleNotification] past its guard, before the write to
    [localStorage]: the pending time is set, the timeout that [timer]
    referred to is cleared and a new one is armed. *)
Definition armed_by_schedule (dateTime : Date) (message : string) (w : world)
  : world :=
  MkWorld (Some (nextHandle w)) (Some dateTime) (clock w)
    (<[nextHandle w :=
         MkTimeout (ScheduledCallback message)
           (num_sub (getTime dateTime) (Num (clock w))) (clock w)]>
       (match timer w with
        | Some h => delete h (timers w)
        | None => timers w
        end))
    (Pos.succ (nextHandle w)) (localStorage w)
    (notificationGranted w) (activeMarkdownView w) (out w).

(** [restoreScheduledNotifications] on a record whose date is ahead. *)
Definition armed_by_restore (data : value) (dateTime : Date) (w : world)
  : world :=
  MkWorld (Some (nextHandle w)) (Some dateTime) (clock w)
    (<[nextHandle w :=
         MkTimeout (RestoredCallback data)
           (num_sub (getTime dateTime) (Num (clock w))) (clock w)]>
       (timers w))
    (Pos.succ (nextHandle w)) (localStorage w)
    (notificationGranted w) (activeMarkdownView w)
    (out w ++ [ConsoleLog (LogRestored dateTime)]).

(** The record is removed and nothing else changes. *)
Definition erased (w : world) : world :=
  with_localStorage (delete KEY (localStorage w)) w.

(** What [showNotification] shows for [text]. *)
Definition shown (text : string) (w : world) : list output :=
  [ShowNotice (NoticeBell text)]
  ++ (if notificationGranted w then [OsNotification text] else [])
  ++ (if activeMarkdownView w
      then [EditorInsert (At (clock w)) text] else []).

(** ** Invariants *)

(** At most the timeout that [timer] refers to is armed, the next handle
    the host gives out is not that one, and with a null [timer] no time is
    pending. *)
Definition well_formed (w : world) : Prop :=
  (forall h, is_Some (timers w !! h) -> timer w = Some h) /\
  (forall h, timer w = Some h -> (h < nextHandle w)%positive) /\
  (timer w = None -> nextNotificationTime w = None).

(** A delay that passed the guard of [scheduleNotification] or of
    [restoreScheduledNotifications]. *)
Definition passed_guard (t : timeout) : Prop :=
  match delay t with
  | NaN => True
  | Num d => 0 < d
  end.

(** One event seen from the timeouts: the clock does not go back, the
    invariant is kept, and a timeout that is armed afterwards was armed
    before or has just passed a guard. *)
Definition advances (w w' : world) : Prop :=
  clock w <= clock w' /\
  (well_formed w -> well_formed w') /\
  (forall h t, timers w' !! h = Some t ->
     timers w !! h = Some t \/ (armedAt t = clock w' /\ passed_guard t)).



(** The record under [KEY] is absent or is one [scheduleNotification]
    wrote. *)
Definition clean `{rt : Runtime} (ls : gmap string string) : Prop :=
  ls !! KEY = None \/
  exists T message scheduledAt,
    valid_time T /\
    ls !! KEY =
      Some (JSON_stringify (persisted (toISOString_text T) message scheduledAt)).

(** With a null [timer] there is no record. *)
Definition settled `{rt : Runtime} (w : world) : Prop :=
  clean (localStorage w) /\
  (timer w = None -> localStorage w !! KEY = None).

(** Every armed timeout is aimed at the pending time. *)
Definition aimed (w : world) : Prop :=
  forall h t, timers w !! h = Some t ->
    exists d, nextNotificationTime w = Some d /\ target t = getTime d.

(** ** A reference runtime

    An implementation of the built-ins, to run the plugin on concrete
    inputs: [toISOString] and a [Date.parse] that reads its format (an
    engine reads more), [JSON.stringify], and a [JSON.parse] for the JSON
    texts whose numbers are integer numerals below 2^53 and whose [\u]
    escapes are not surrogates. Strings are byte strings, in UTF-8. *)

Module Ref.

Definition dquote : ascii := "034"%char.
Definition backslash : ascii := "092"%char.

Definition code (c : ascii) : Z := Z.of_N (N_of_ascii c).
Definition char (n : Z) : ascii := ascii_of_N (Z.to_N n).

(** *** Decimal and hexadecimal digits *)

Definition digit (n : Z) : ascii := char (48 + n).

Definition digit_value (c : ascii) : option Z :=
  let n := code c in
  if (48 <=? n) && (n <=? 57) then Some (n - 48) else None.

Definition hex_digit (n : Z) : ascii :=
  if n <? 10 then char (48 + n) else char (87 + n).

Definition hex_value (c : ascii) : option Z :=
  let n := code c in
  if (48 <=? n) && (n <=? 57) then Some (n - 48)
  else if (97 <=? n) && (n <=? 102) then Some (n - 87)
  else if (65 <=? n) && (n <=? 70) then Some (n - 55)
  else None.

(** *** [JSON.stringify] *)

Definition escape_char (c : ascii) : string :=
  let n := code c in
  if n =? 34 then String backslash (String dquote "")
  else if n =? 92 then String backslash (String backslash "")
  else if n =? 8 then String backslash "b"
  else if n =? 12 then String backslash "f"
  else if n =? 10 then String backslash "n"
  else if n =? 13 then String backslash "r"
  else if n =? 9 then String backslash "t"
  else if n <? 32 then
    String backslash
      (String "u" (String "0" (String "0"
         (String (hex_digit (n / 16)) (String (hex_digit (n mod 16)) "")))))
  else String c "".

Fixpoint escape (s : string) : string :=
  match s with
  | EmptyString => ""
  | String c r => escape_char c +:+ escape r
  end.

Definition quote (s : string) : string :=
  String dquote (escape s +:+ String dquote "").

Fixpoint digits_of (fuel : nat) (n : Z) (acc : string) : string :=
  match fuel with
  | O => acc
  | S f =>
      let acc' := String (digit (n mod 10)) acc in
      if n <? 10 then acc' else digits_of f (n / 10) acc'
  end.

(** The decimal numeral of an integer. *)
Definition decimal (n : Z) : string :=
  if n <? 0 then String "-" (digits_of 400 (- n) "")
  else digits_of 400 n "".

(** The integer a double denotes when it is one. *)
Definition integer_of (x : spec_float) : option Z :=
  match x with
  | S754_zero _ => Some 0
  | S754_finite s m e =>
      if 0 <=? e then Some ((if s then -1 else 1) * Z.pos m * 2 ^ e)
      else if Z.pos m mod 2 ^ (- e) =? 0
           then Some ((if s then -1 else 1) * (Z.pos m / 2 ^ (- e)))
           else None
  | _ => None
  end.

(** Integers print as their decimal numeral, as JavaScript prints them
    below 10^21. The parser below yields no other finite number. *)
Definition Number_toString (x : spec_float) : string :=
  match x with
  | S754_nan => "NaN"
  | S754_infinity false => "Infinity"
  | S754_infinity true => "-Infinity"
  | _ => match integer_of x with
         | Some n => decimal n
         | None => "NaN"
         end
  end.

(** [JSON.stringify] of what [JSON.parse] can return. *)
Fixpoint stringify (v : value) : string :=
  match v with
  | VUndefined | VNull => "null"
  | VBool true => "true"
  | VBool false => "false"
  | VNum x =>
      match x with
      | S754_nan | S754_infinity _ => "null"
      | _ => Number_toString x
      end
  | VStr s => quote s
  | VArr items =>
      "[" +:+
      (fix elements (l : list value) : string :=
         match l with
         | [] => ""
         | x :: rest =>
             stringify x +:+
             match rest with
             | [] => ""
             | _ => "," +:+ elements rest
             end
         end) items +:+ "]"
  | VObj props =>
      "{" +:+
      (fix members (l : list (string * value)) : string :=
         match l with
         | [] => ""
         | (k, x) :: rest =>
             quote k +:+ ":" +:+ stringify x +:+
             match rest with
             | [] => ""
             | _ => "," +:+ members rest
             end
         end) props +:+ "}"
  end.

(** *** [JSON.parse] *)

Definition is_ws (c : ascii) : bool :=
  let n := code c in (n =? 32) || (n =? 9) || (n =? 10) || (n =? 13).

Fixpoint skip_ws (s : string) : string :=
  match s with
  | String c r => if is_ws c then skip_ws r else s
  | EmptyString => s
  end.

(** The UTF-8 bytes of a code point of the basic plane. *)
Definition utf8 (n : Z) : string :=
  if n <? 128 then String (char n) ""
  else if n <? 2048 then
    String (char (192 + n / 64)) (String (char (128 + n mod 64)) "")
  else
    String (char (224 + n / 4096))
      (String (char (128 + (n / 64) mod 64))
         (String (char (128 + n mod 64)) "")).

Definition hex4 (a b c d : ascii) : option Z :=
  match hex_value a, hex_value b, hex_value c, hex_value d with
  | Some x, Some y, Some z, Some w => Some (((x * 16 + y) * 16 + z) * 16 + w)
  | _, _, _, _ => None
  end.

(** The characters of a string literal after its opening quote, and what
    follows its closing quote. *)
Fixpoint string_body (s : string) : option (string * string) :=
  match s with
  | EmptyString => None
  | String c r =>
      let n := code c in
      if n =? 34 then Some ("", r)
      else if n =? 92 then
        match r with
        | String e r1 =>
            let k := code e in
            let plain (ch : ascii) :=
              match string_body r1 with
              | Some (t, rest) => Some (String ch t, rest)
              | None => None
              end in
            if k =? 34 then plain dquote
            else if k =? 92 then plain backslash
            else if k =? 47 then plain "/"%char
            else if k =? 98 then plain "008"%char
            else if k =? 102 then plain "012"%char
            else if k =? 110 then plain "010"%char
            else if k =? 114 then plain "013"%char
            else if k =? 116 then plain "009"%char
            else if k =? 117 then
              match r1 with
              | String h1 (String h2 (String h3 (String h4 r2))) =>
                  match hex4 h1 h2 h3 h4 with
                  | Some cp =>
                      if (55296 <=? cp) && (cp <=? 57343) then None
                      else
                        match string_body r2 with
                        | Some (t, rest) => Some (utf8 cp +:+ t, rest)
                        | None => None
                        end
                  | None => None
                  end
              | _ => None
              end
            else None
        | EmptyString => None
        end
      else if n <? 32 then None
      else
        match string_body r with
        | Some (t, rest) => Some (String c t, rest)
        | None => None
        end
  end.

Fixpoint digits (s : string) (acc : Z) : Z * string :=
  match s with
  | String c r =>
      match digit_value c with
      | Some d => digits r (acc * 10 + d)
      | None => (acc, s)
      end
  | EmptyString => (acc, s)
  end.

(** The double of an integer. *)
Definition double (negative : bool) (n : Z) : spec_float :=
  if n =? 0 then S754_zero negative
  else binary_normalize 53 1024 (if negative then - n else n) 0 false.

(** An integer numeral below 2^53. A fraction or an exponent is beyond
    this parser. *)
Definition numeral (s : string) : option (value * string) :=
  let '(negative, s1) :=
    match s with
    | String c r => if code c =? 45 then (true, r) else (false, s)
    | EmptyString => (false, s)
    end in
  match s1 with
  | String c r =>
      match digit_value c with
      | Some d =>
          let '(n, rest) := if d =? 0 then (0, r) else digits r d in
          let more :=
            match rest with
            | String c' _ =>
                let k := code c' in (k =? 46) || (k =? 101) || (k =? 69)
            | EmptyString => false
            end in
          if more || (2 ^ 53 <=? n) then None
          else Some (VNum (double negative n), rest)
      | None => None
      end
  | EmptyString => None
  end.

Fixpoint strip (prefix s : string) : option string :=
  match prefix, s with
  | EmptyString, _ => Some s
  | String a p, String b r => if code a =? code b then strip p r else None
  | _, _ => None
  end.

(** A later member with the same key replaces the earlier one. *)
Fixpoint set_prop (k : string) (v : value) (props : list (string * value))
  : list (string * value) :=
  match props with
  | [] => [(k, v)]
  | (k', v') :: rest =>
      if String.eqb k k' then (k, v) :: rest
      else (k', v') :: set_prop k v rest
  end.

Section Composite.

Variable parse_value : string -> option (value * string).

(** The elements of an array from the first one to the closing bracket. *)
Fixpoint elements (fuel : nat) (s : string) : option (list value * string) :=
  match fuel with
  | O => None
  | S f =>
      match parse_value s with
      | Some (v, r) =>
          match skip_ws r with
          | String c r' =>
              if code c =? 44 then
                match elements f r' with
                | Some (l, rest) => Some (v :: l, rest)
                | None => None
                end
              else if code c =? 93 then Some ([v], r')
              else None
          | EmptyString => None
          end
      | None => None
      end
  end.

(** The members of an object from the first one to the closing brace. *)
Fixpoint members (fuel : nat) (s : string) (acc : list (string * value))
  : option (list (string * value) * string) :=
  match fuel with
  | O => None
  | S f =>
      match skip_ws s with
      | String q r =>
          if code q =? 34 then
            match string_body r with
            | Some (k, r1) =>
                match skip_ws r1 with
                | String colon r2 =>
                    if code colon =? 58 then
                      match parse_value r2 with
                      | Some (v, r3) =>
                          let acc' := set_prop k v acc in
                          match skip_ws r3 with
                          | String c r4 =>
                              if code c =? 44 then members f r4 acc'
                              else if code c =? 125 then Some (acc', r4)
                              else None
                          | EmptyString => None
                          end
                      | None => None
                      end
                    else None
                | EmptyString => None
                end
            | None => None
            end
          else None
      | EmptyString => None
      end
  end.

End Composite.

Fixpoint parse_value (fuel : nat) (s : string) : option (value * string) :=
  match fuel with
  | O => None
  | S f =>
      match skip_ws s with
      | String c r =>
          let n := code c in
          if n =? 123 then
            match skip_ws r with
            | String c' r' =>
                if code c' =? 125 then Some (VObj [], r')
                else
                  match members (parse_value f) f r [] with
                  | Some (props, rest) => Some (VObj props, rest)
                  | None => None
                  end
            | EmptyString => None
            end
          else if n =? 91 then
            match skip_ws r with
            | String c' r' =>
                if code c' =? 93 then Some (VArr [], r')
                else
                  match elements (parse_value f) f r with
                  | Some (items, rest) => Some (VArr items, rest)
                  | None => None
                  end
            | EmptyString => None
            end
          else if n =? 34 then
            match string_body r with
            | Some (t, rest) => Some (VStr t, rest)
            | None => None
            end
          else if n =? 110 then
            option_map (pair VNull) (strip "ull" r)
          else if n =? 116 then
            option_map (pair (VBool true)) (strip "rue" r)
          else if n =? 102 then
            option_map (pair (VBool false)) (strip "alse" r)
          else numeral (String c r)
      | EmptyString => None
      end
  end.

Definition JSON_parse (s : string) : option value :=
  match parse_value (S (String.length s)) s with
  | Some (v, rest) =>
      match skip_ws rest with
      | EmptyString => Some v
      | _ => None
      end
  | None => None
  end.


(** *** Calendar *)

Definition msPerDay : Z := 86400000.

(** The civil date of a day number counted from the epoch, and back, in the
    proleptic Gregorian calendar. Days are counted in eras of 400 years
    that start on 1 March. *)
Definition civil_of_days (z : Z) : Z * Z * Z :=
  let z := z + 719468 in
  let era := z / 146097 in
  let doe := z mod 146097 in
  let yoe := (doe - doe / 1460 + doe / 36524 - doe / 146096) / 365 in
  let doy := doe - (365 * yoe + yoe / 4 - yoe / 100) in
  let mp := (5 * doy + 2) / 153 in
  let d := doy - (153 * mp + 2) / 5 + 1 in
  let m := if mp <? 10 then mp + 3 else mp - 9 in
  ((if m <=? 2 then 1 else 0) + yoe + era * 400, m, d).

Definition days_of_civil (y m d : Z) : Z :=
  let y := y - (if m <=? 2 then 1 else 0) in
  let era := y / 400 in
  let yoe := y mod 400 in
  let doy := (153 * (if 2 <? m then m - 3 else m + 9) + 2) / 5 + d - 1 in
  let doe := yoe * 365 + yoe / 4 - yoe / 100 + doy in
  era * 146097 + doe - 719468.

Definition leap (y : Z) : bool :=
  ((y mod 4 =? 0) && negb (y mod 100 =? 0)) || (y mod 400 =? 0).

Definition days_in_month (y m : Z) : Z :=
  if m =? 2 then (if leap y then 29 else 28)
  else if (m =? 4) || (m =? 6) || (m =? 9) || (m =? 11) then 30
  else 31.

(** *** [Date.prototype.toISOString] *)

Definition pad2 (n : Z) : string :=
  String (digit (n / 10)) (String (digit (n mod 10)) "").
Definition pad3 (n : Z) : string := String (digit (n / 100)) (pad2 (n mod 100)).
Definition pad4 (n : Z) : string :=
  String (digit (n / 1000)) (pad3 (n mod 1000)).
Definition pad6 (n : Z) : string :=
  String (digit (n / 100000))
    (String (digit (n / 10000 mod 10)) (pad4 (n mod 10000))).

(** Four digits, or a sign and six digits outside 0..9999. *)
Definition year_text (y : Z) : string :=
  if (0 <=? y) && (y <=? 9999) then pad4 y
  else if y <? 0 then String "-" (pad6 (- y))
  else String "+" (pad6 y).

Definition iso_text (y m d h mi sec ms : Z) : string :=
  year_text y +:+ "-" +:+ pad2 m +:+ "-" +:+ pad2 d +:+ "T" +:+
  pad2 h +:+ ":" +:+ pad2 mi +:+ ":" +:+ pad2 sec +:+ "." +:+ pad3 ms +:+ "Z".

Definition toISOString_text (t : Z) : string :=
  let day := t / msPerDay in
  let ms := t mod msPerDay in
  let '(y, m, d) := civil_of_days day in
  iso_text y m d (ms / 3600000) (ms / 60000 mod 60) (ms / 1000 mod 60)
    (ms mod 1000).

(** *** [Date.parse]

    Reads the format that [toISOString] writes. *)

Fixpoint take_digits (k : nat) (s : string) (acc : Z) : option (Z * string) :=
  match k with
  | O => Some (acc, s)
  | S k' =>
      match s with
      | String c r =>
          match digit_value c with
          | Some d => take_digits k' r (acc * 10 + d)
          | None => None
          end
      | EmptyString => None
      end
  end.

Definition expect (c : ascii) (s : string) : option string :=
  match s with
  | String c' r => if code c' =? code c then Some r else None
  | EmptyString => None
  end.

Definition year (s : string) : option (Z * string) :=
  match s with
  | String c r =>
      if code c =? 43 then take_digits 6 r 0
      else if code c =? 45 then
        match take_digits 6 r 0 with
        | Some (y, rest) => if y =? 0 then None else Some (- y, rest)
        | None => None
        end
      else take_digits 4 s 0
  | EmptyString => None
  end.

Definition fields (s : string) : option (Z * Z * Z * Z * Z * Z * Z) :=
  '(y, s) ← year s;
  s ← expect "-" s; '(m, s) ← take_digits 2 s 0;
  s ← expect "-" s; '(d, s) ← take_digits 2 s 0;
  s ← expect "T" s; '(h, s) ← take_digits 2 s 0;
  s ← expect ":" s; '(mi, s) ← take_digits 2 s 0;
  s ← expect ":" s; '(sec, s) ← take_digits 2 s 0;
  s ← expect "." s; '(ms, s) ← take_digits 3 s 0;
  s ← expect "Z" s;
  match s with
  | EmptyString => Some (y, m, d, h, mi, sec, ms)
  | _ => None
  end.

Definition Date_parse (s : string) : number :=
  match fields s with
  | Some (y, m, d, h, mi, sec, ms) =>
      if (1 <=? m) && (m <=? 12) && (1 <=? d) && (d <=? days_in_month y m)
         && (h <=? 23) && (mi <=? 59) && (sec <=? 59)
      then
        let t := days_of_civil y m d * msPerDay
                 + h * 3600000 + mi * 60000 + sec * 1000 + ms in
        if (- maxTime <=? t) && (t <=? maxTime) then Num t else NaN
      else NaN
  | None => NaN
  end.



End Ref.

Definition RefRuntime : Runtime := {|
  toISOString_text := Ref.toISOString_text;
  Date_parse := Ref.Date_parse;
  JSON_stringify := Ref.stringify;
  JSON_parse := Ref.JSON_parse;
  Number_toString := Ref.Number_toString;
|}.

(** ** Local time

    The dialog reads the hour and the minute in local time and hands
    [Date.parse] a text without a time zone, which stands for a local time.
    The zone is one that is [tz] milliseconds ahead of UTC all year. *)

Module LocalTime.

(** [Date.prototype.getHours] and [getMinutes] *)
Definition getHours (tz : Z) (d : Date) : number :=
  match getTime d with
  | Num t => Num ((t + tz) / 3600000 mod 24)
  | NaN => NaN
  end.

Definition getMinutes (tz : Z) (d : Date) : number :=
  match getTime d with
  | Num t => Num ((t + tz) / 60000 mod 60)
  | NaN => NaN
  end.

(** The date of the date-time string format (ECMA-262, 21.4.1.32): [YYYY],
    [YYYY-MM] or [YYYY-MM-DD], the year with a sign and six digits when it
    is expanded. A month or day that is left out is the first. *)
Definition date_part (s : string) : option (Z * Z * Z * string) :=
  '(y, s) ← Ref.year s;
  match Ref.expect "-" s with
  | None => Some (y, 1, 1, s)
  | Some s =>
      '(m, s) ← Ref.take_digits 2 s 0;
      match Ref.expect "-" s with
      | None => Some (y, m, 1, s)
      | Some s => '(d, s) ← Ref.take_digits 2 s 0; Some (y, m, d, s)
      end
  end.

(** The time after the [T]: [HH:mm], [HH:mm:ss] or [HH:mm:ss.sss]. *)
Definition time_part (s : string) : option (Z * Z * Z * Z * string) :=
  '(h, s) ← Ref.take_digits 2 s 0;
  s ← Ref.expect ":" s;
  '(mi, s) ← Ref.take_digits 2 s 0;
  match Ref.expect ":" s with
  | None => Some (h, mi, 0, 0, s)
  | Some s =>
      '(sec, s) ← Ref.take_digits 2 s 0;
      match Ref.expect "." s with
      | None => Some (h, mi, sec, 0, s)
      | Some s => '(ms, s) ← Ref.take_digits 3 s 0; Some (h, mi, sec, ms, s)
      end
  end.

(** The end of the text: [Z], an offset [+HH:mm] or [-HH:mm] in
    milliseconds, or nothing, which is [Some None]. *)
Definition zone_part (s : string) : option (option Z) :=
  match s with
  | EmptyString => Some None
  | String c r =>
      if Ref.code c =? 90 then
        match r with
        | EmptyString => Some (Some 0)
        | _ => None
        end
      else if (Ref.code c =? 43) || (Ref.code c =? 45) then
        '(h, r) ← Ref.take_digits 2 r 0;
        r ← Ref.expect ":" r;
        '(mi, r) ← Ref.take_digits 2 r 0;
        match r with
        | EmptyString =>
            if (h <=? 23) && (mi <=? 59) then
              let off := h * 3600000 + mi * 60000 in
              Some (Some (if Ref.code c =? 45 then - off else off))
            else None
        | _ => None
        end
      else None
  end.

(** The time value of the fields, read in a zone [off] milliseconds ahead
    of UTC. The hour 24 is the midnight that ends the day. *)
Definition time_value (y m d h mi sec ms off : Z) : number :=
  if (1 <=? m) && (m <=? 12) && (1 <=? d) && (d <=? Ref.days_in_month y m)
     && (((h <=? 23) && (mi <=? 59) && (sec <=? 59))
         || ((h =? 24) && (mi =? 0) && (sec =? 0) && (ms =? 0)))
  then
    let t := Ref.days_of_civil y m d * Ref.msPerDay
             + h * 3600000 + mi * 60000 + sec * 1000 + ms - off in
    if (- maxTime <=? t) && (t <=? maxTime) then Num t else NaN
  else NaN.

(** [Date.parse] of a text in the date-time string format: a date alone is
    in UTC, a date and time without a zone are local. Other texts, which an
    engine may read in ways of its own, are not dates here. *)
Definition Date_parse (tz : Z) (s : string) : number :=
  match date_part s with
  | Some (y, m, d, rest) =>
      match rest with
      | EmptyString => time_value y m d 0 0 0 0 0
      | String c r =>
          if Ref.code c =? 84 then
            match time_part r with
            | Some (h, mi, sec, ms, r') =>
                match zone_part r' with
                | Some (Some off) => time_value y m d h mi sec ms off
                | Some None => time_value y m d h mi sec ms tz
                | None => NaN
                end
            | None => NaN
            end
          else NaN
      end
  | None => NaN
  end.

End LocalTime.

(** The reference runtime in that time zone. *)
Definition LocalRuntime (tz : Z) : Runtime := {|
  toISOString_text := Ref.toISOString_text;
  Date_parse := LocalTime.Date_parse tz;
  JSON_stringify := Ref.stringify;
  JSON_parse := Ref.JSON_parse;
  Number_toString := Ref.Number_toString;
|}.

(** ** The dialog

    [ScheduleNotificationModal], lines 201-269: the constructor fills in
    the current date and time, the three text fields overwrite them, and
    the button that confirms calls [schedule]. *)

Module ScheduleNotificationModal.

(** [String(n)] for a number that is an integer or NaN *)
Definition String_of (n : number) : string :=
  match n with
  | Num z => Ref.decimal z
  | NaN => "NaN"
  end.

Fixpoint fill (c : ascii) (k : nat) : string :=
  match k with
  | O => EmptyString
  | S k' => String c (fill c k')
  end.

(** [s.padStart(n, c)] for a one-character [c] *)
Definition padStart (n : nat) (c : ascii) (s : string) : string :=
  fill c (n - String.length s) +:+ s.

(** [s.split(c)[0]]: the text before the first [c] *)
Fixpoint before (c : ascii) (s : string) : string :=
  match s with
  | EmptyString => EmptyString
  | String x r =>
      if Ref.code x =? Ref.code c then EmptyString else String x (before c r)
  end.

(** The field [result], line 202 *)
Record result := MkResult {
  date : string;
  time : string;
  message : string;
}.

Section Modal.

Context {rt : Runtime} (tz : Z).

(** The constructor, lines 205-216, fills in the defaults. *)
Definition constructor : M result :=
  now ← new_Date;
  iso ← toISOString now;
  mret (MkResult
          (before "T" iso)
          (padStart 2 "0" (String_of (LocalTime.getHours tz now)) +:+ ":" +:+
           padStart 2 "0" (String_of (LocalTime.getMinutes tz now)))
          "Напоминание из Obsidian!").

(** The [onChange] handlers of the three fields, lines 228, 236 and 244 *)
Definition onChange_date (value : string) (r : result) : result :=
  MkResult value (time r) (message r).
Definition onChange_time (value : string) (r : result) : result :=
  MkResult (date r) value (message r).
Definition onChange_message (value : string) (r : result) : result :=
  MkResult (date r) (time r) value.

(** [schedule], lines 265-268 *)
Definition schedule (r : result) : M unit :=
  modal_schedule (date r) (time r) (message r).

End Modal.

End ScheduleNotificationModal.

(** *** Worlds to run the plugin on *)

(** The application has just started with an empty [localStorage], one
    second after the epoch. *)
Definition fresh_start : world :=
  boot (rt := RefRuntime) ∅ 1000 false false.

(** A reminder for second 5 has been scheduled. *)
Definition first_pending : world :=
  exec (scheduleNotification (rt := RefRuntime) (At 5000) "first") fresh_start.

(** A new process at second 3 that finds the record of that reminder,
    before [onload] runs. *)
Definition restart_before : world :=
  MkWorld None None 3000 ∅ 1%positive (localStorage first_pending)
    false false [].

(** The reminder for second 5 is due. *)
Definition first_due : world := with_clock 5000 first_pending.

(** The reminder for second 5 has fired at second 5. *)
Definition first_fired : world :=
  exec (run_callback (rt := RefRuntime) (ScheduledCallback "first"))
    (with_timers (delete 1%positive (timers first_due)) first_due).

(** The application was restarted at second 3 with that reminder pending,
    and the timeout armed from the record is due. *)
Definition restored_due : world :=
  with_clock 5000 (exec (onload (rt := RefRuntime)) restart_before).

(** The application was restarted at second 7 with that reminder pending. *)
Definition restarted : world :=
  exec (onload (rt := RefRuntime))
    (new_instance (with_nextHandle 1%positive
       (with_timers ∅ (with_clock 7000 first_pending)))).

(** A new process one second after the epoch that finds [ls] in
    [localStorage], before [onload] runs. *)
Definition before_onload (ls : gmap string string) : world :=
  MkWorld None None 1000 ∅ 1%positive ls false false [].

(** Items another program may have left under [KEY]: text that is not
    JSON, a record whose [dateTime] is not a date, and a record whose
    [dateTime] is a number. *)
Definition corrupt : gmap string string := {[KEY := "not json"%string]}.

Definition undated : string :=
  "{" +:+ Ref.quote "dateTime" +:+ ":" +:+ Ref.quote "soon" +:+ "}".

Definition numbered : string :=
  "{" +:+ Ref.quote "dateTime" +:+ ":4102444800000}".

(** A record whose message cannot be made into text. *)
Definition unprintable : string :=
  "{" +:+ Ref.quote "dateTime" +:+ ":" +:+ Ref.quote "1970-01-01T00:00:05.000Z"
  +:+ "," +:+ Ref.quote "message" +:+ ":{" +:+ Ref.quote "toString"
  +:+ ":1}}".

(** The application started with that record, and the timeout it armed is
    due. *)
Definition unprintable_due : world :=
  with_clock 5000
    (boot (rt := RefRuntime) {[KEY := unprintable]} 1000 false false).

(** The dialog is opened on 2 May 2024 at 01:00:30 UTC, in a new process
    with an empty [localStorage]. *)
Definition dialog_opened : world :=
  MkWorld None None 1714611630000 ∅ 1%positive ∅ false false [].

(** * Properties *)

Ltac unfold_M :=
  repeat progress unfold mbind, M_bind, bind, mret, M_ret, ret, throw,
    try_catch, or_TypeError, new_Date, pass, get_timer, set_timer, get_next,
    set_next, setTimeout, clearTimeout, getItem, setItem, removeItem, emit,
    granted, getActiveViewOfType in *.

(** ** The operations, one case at a time *)

Section Operations.

Context {rt : Runtime}.

Lemma scheduleNotification_past (w : world) (t : Z) (msg : string) :
  t <= clock w ->
  scheduleNotification (At t) msg w =
    (Ret tt, with_out (out w ++ [ShowNotice NoticeChooseFuture]) w).
Proof.
  intros H. unfold scheduleNotification. unfold_M. cbn.
  destruct (Z.leb_spec (t - clock w) 0); [reflexivity | lia].
Qed.

Lemma scheduleNotification_future (w : world) (t : Z) (msg : string) :
  clock w < t ->
  scheduleNotification (At t) msg w =
    (Ret tt,
     with_out (out w ++ [ShowNotice (NoticeSetFor (At t))])
       (with_localStorage
          (<[KEY := JSON_stringify
                      (persisted (toISOString_text t) msg
                                 (toISOString_text (clock w)))]>
             (localStorage w))
          (armed_by_schedule (At t) msg w))).
Proof.
  intros H. unfold scheduleNotification, saveToLocalStorage, toISOString.
  unfold_M. cbn.
  destruct (Z.leb_spec (t - clock w) 0); [lia|].
  destruct w as [tm nx c ts nh ls g a o]; cbn in *.
  destruct tm; reflexivity.
Qed.

Lemma scheduleNotification_invalid (w : world) (msg : string) :
  scheduleNotification InvalidDate msg w =
    (Throw RangeError, armed_by_schedule InvalidDate msg w).
Proof.
  unfold scheduleNotification, saveToLocalStorage, toISOString. unfold_M. cbn.
  destruct w as [tm nx c ts nh ls g a o]; cbn in *.
  destruct tm; reflexivity.
Qed.

Lemma restore_absent (w : world) :
  localStorage w !! KEY = None ->
  restoreScheduledNotifications w = (Ret tt, w).
Proof.
  intros H. unfold restoreScheduledNotifications. unfold_M.
  rewrite H. reflexivity.
Qed.

Lemma restore_empty (w : world) :
  localStorage w !! KEY = Some ""%string ->
  restoreScheduledNotifications w = (Ret tt, w).
Proof.
  intros H. unfold restoreScheduledNotifications. unfold_M.
  rewrite H. reflexivity.
Qed.

Lemma restore_unparseable (w : world) (s : string) :
  localStorage w !! KEY = Some s -> s <> ""%string -> JSON_parse s = None ->
  restoreScheduledNotifications w =
    (Ret tt, with_out (out w ++ [ConsoleError SyntaxError]) w).
Proof.
  intros H Hs Hp. unfold restoreScheduledNotifications, parse. unfold_M.
  rewrite H. destruct (String.eqb_spec s ""); [done|].
  rewrite Hp. reflexivity.
Qed.

(** A record that parses: the three ways on from there. *)
Lemma restore_parsed (w : world) (s : string) (data : value) :
  localStorage w !! KEY = Some s -> s <> ""%string ->
  JSON_parse s = Some data ->
  restoreScheduledNotifications w =
    match get_prop data "dateTime" ≫= date_of with
    | None => (Ret tt, with_out (out w ++ [ConsoleError TypeError]) w)
    | Some d =>
        if num_gtb (getTime d) (Num (clock w))
        then (Ret tt, armed_by_restore data d w)
        else (Ret tt, erased w)
    end.
Proof.
  intros H Hs Hp.
  unfold restoreScheduledNotifications, parse, Get, Date_of. unfold_M.
  rewrite H. destruct (String.eqb_spec s ""); [done|].
  rewrite Hp. destruct (get_prop data "dateTime") as [v|]; [|reflexivity].
  unfold_M. cbn. destruct (date_of v) as [d|]; [|reflexivity].
  cbn. destruct (num_gtb (getTime d) (Num (clock w))); reflexivity.
Qed.

Lemma showNotification_converts (w : world) (v : value) (text : string) :
  to_string v = Some text ->
  showNotification v w = (Ret tt, with_out (out w ++ shown text w) w).
Proof.
  intros H. unfold showNotification, appendToActiveNote, ToString, shown.
  unfold_M. rewrite H.
  destruct w as [tm nx c ts nh ls g a o]; cbn.
  destruct g, a; cbn; rewrite <- ?app_assoc; reflexivity.
Qed.

Lemma showNotification_throws (w : world) (v : value) :
  to_string v = None -> showNotification v w = (Throw TypeError, w).
Proof.
  intros H. unfold showNotification, ToString. unfold_M. rewrite H. reflexivity.
Qed.

Lemma run_scheduled_callback (w : world) (msg : string) :
  run_callback (ScheduledCallback msg) w =
    (Ret tt, with_next None (with_out (out w ++ shown msg w) w)).
Proof.
  unfold run_callback. unfold_M.
  rewrite (showNotification_converts w (VStr msg) msg) by reflexivity.
  reflexivity.
Qed.

Lemma run_restored_callback (w : world) (data v : value) (text : string) :
  get_prop data "message" = Some v -> to_string v = Some text ->
  run_callback (RestoredCallback data) w =
    (Ret tt, erased (with_next None (with_out (out w ++ shown text w) w))).
Proof.
  intros Hg Ht. unfold run_callback, Get. unfold_M. rewrite Hg.
  rewrite (showNotification_converts w v text) by assumption.
  reflexivity.
Qed.

Lemma run_restored_callback_throws (w : world) (data m : value) :
  get_prop data "message" = Some m -> to_string m = None ->
  run_callback (RestoredCallback data) w = (Throw TypeError, w).
Proof.
  intros Hg Ht. unfold run_callback, Get. unfold_M. rewrite Hg.
  by rewrite showNotification_throws.
Qed.

(** The restored callback by cases on the message of its record: it is
    shown when it converts to text; otherwise the callback throws before it
    changes anything. *)
Lemma exec_restored_callback (data : value) (w : world) :
  exec (run_callback (RestoredCallback data)) w =
    match get_prop data "message" ≫= to_string with
    | Some text => erased (with_next None (with_out (out w ++ shown text w) w))
    | None => w
    end.
Proof.
  unfold exec. destruct (get_prop data "message") as [m|] eqn:Hm.
  - destruct (to_string m) as [text|] eqn:Ht.
    + rewrite (run_restored_callback w data m text Hm Ht). cbn.
      by rewrite Ht.
    + rewrite (run_restored_callback_throws w data m Hm Ht). cbn.
      by rewrite Ht.
  - unfold run_callback, Get. unfold_M. by rewrite Hm.
Qed.

(** A value with one property has every property, [undefined] where it has
    none of its own. *)
Lemma get_prop_defined (data v : value) (k k' : string) :
  get_prop data k = Some v -> is_Some (get_prop data k').
Proof. destruct data; cbn; eauto; discriminate. Qed.

Lemma fire_due (h : positive) (t : timeout) (w : world) :
  timers w !! h = Some t -> due t <= clock w ->
  fire h w =
    Some (exec (run_callback (handler t))
               (with_timers (delete h (timers w)) w)).
Proof.
  intros Hh Hd. unfold fire. rewrite Hh.
  by destruct (Z.leb_spec (due t) (clock w)); [|lia].
Qed.

(** A timeout armed for a time ahead is due once the clock is there. *)
Lemma due_by_target (cb : callback) (T c : Z) :
  c < T -> due (MkTimeout cb (Num (T - c)) c) <= T.
Proof.
  intros H. unfold due; cbn. destruct (T - c <=? maxDelay); lia.
Qed.

Lemma cancel_handle (w : world) (h : positive) :
  timer w = Some h ->
  cancel w =
    (Ret tt,
     with_out (out w ++ [ShowNotice NoticeAllCancelled; Display NoneScheduled])
       (erased (with_next None (with_timer None
          (with_timers (delete h (timers w)) w))))).
Proof.
  intros H. unfold cancel, display, getNextNotificationInfo. unfold_M.
  rewrite H.
  destruct w; cbn. rewrite <- app_assoc. reflexivity.
Qed.

Lemma cancel_null (w : world) : timer w = None -> cancel w = (Ret tt, w).
Proof. intros H. unfold cancel. unfold_M. rewrite H. reflexivity. Qed.

Lemma onload_after_restore (w r : world) :
  restoreScheduledNotifications w = (Ret tt, r) ->
  exec onload w = with_out (out r ++ [ConsoleLog LogLoaded]) r.
Proof. intros E. unfold onload, exec. unfold_M. by rewrite E. Qed.

End Operations.

(** ** The shape of every outcome *)

Ltac map_facts :=
  repeat match goal with
  | H : is_Some (<[_:=_]> _ !! _) |- _ => apply lookup_insert_is_Some in H
  | H : is_Some (delete _ _ !! _) |- _ => apply lookup_delete_is_Some in H
  | H : <[_:=_]> _ !! _ = Some _ |- _ => apply lookup_insert_Some in H
  | H : delete _ _ !! _ = Some _ |- _ => apply lookup_delete_Some in H
  | H : is_Some (∅ !! _) |- _ =>
      rewrite lookup_empty in H; destruct H; discriminate
  | H : ∅ !! _ = Some _ |- _ => rewrite lookup_empty in H; discriminate
  | H : _ /\ _ |- _ => destruct H
  | H : _ \/ _ |- _ => destruct H
  end; simplify_eq/=.

Section Shapes.

Context {rt : Runtime}.

Lemma schedule_shape (d : Date) (msg : string) (w : world) :
  exists oc w',
    scheduleNotification d msg w = (oc, w') /\
    (w' = with_out (out w ++ [ShowNotice NoticeChooseFuture]) w \/
     exists ls o,
       w' = with_out o (with_localStorage ls (armed_by_schedule d msg w)) /\
       match getTime d with
       | NaN => ls = localStorage w
       | Num t =>
           clock w < t /\
           ls = <[KEY := JSON_stringify
                           (persisted (toISOString_text t) msg
                                      (toISOString_text (clock w)))]>
                  (localStorage w)
       end).
Proof.
  destruct d as [[|t]].
  - do 2 eexists. split; [apply scheduleNotification_invalid|].
    right. exists (localStorage w), (out w). split; [|reflexivity].
    destruct w; reflexivity.
  - destruct (Z_le_gt_dec t (clock w)).
    + do 2 eexists. split; [apply scheduleNotification_past; lia|]. by left.
    + do 2 eexists. split; [apply scheduleNotification_future; lia|].
      right. do 2 eexists. split; [reflexivity|]. cbn. split; [lia|reflexivity].
Qed.

Lemma restore_shape (w : world) :
  exists w',
    restoreScheduledNotifications w = (Ret tt, w') /\
    ((exists o, w' = with_out o w) \/
     w' = erased w \/
     exists data d T,
       getTime d = Num T /\ clock w < T /\ w' = armed_by_restore data d w).
Proof.
  destruct (localStorage w !! KEY) as [s|] eqn:Hs.
  2:{ eexists. split; [by apply restore_absent|]. left. exists (out w).
      by destruct w. }
  destruct (String.eqb_spec s "") as [->|Hne].
  { eexists. split; [by apply restore_empty|]. left. exists (out w).
    by destruct w. }
  destruct (JSON_parse s) as [data|] eqn:Hp.
  2:{ eexists. split; [by eapply restore_unparseable|]. left. eauto. }
  rewrite (restore_parsed w s data Hs Hne Hp).
  destruct (get_prop data "dateTime" ≫= date_of) as [d|].
  2:{ eexists. split; [reflexivity|]. left. eauto. }
  destruct d as [[|T]]; cbn.
  { eexists. split; [reflexivity|]. right. by left. }
  destruct (Z.ltb_spec (clock w) T).
  - eexists. split; [reflexivity|]. right. right. by exists data, (At T), T.
  - eexists. split; [reflexivity|]. right. by left.
Qed.

Lemma run_callback_shape (cb : callback) (w : world) :
  exists oc nx ls o,
    run_callback cb w
    = (oc, with_out o (with_localStorage ls (with_next nx w))) /\
    (nx = nextNotificationTime w \/ nx = None) /\
    (ls = localStorage w \/ ls = delete KEY (localStorage w)).
Proof.
  destruct cb as [msg|data].
  - rewrite run_scheduled_callback.
    exists (Ret tt), None, (localStorage w), (out w ++ shown msg w).
    split; [by destruct w|]. split; [by right|by left].
  - destruct (get_prop data "message") as [v|] eqn:Hg.
    + destruct (to_string v) as [text|] eqn:Ht.
      * rewrite (run_restored_callback w data v text Hg Ht).
        exists (Ret tt), None, (delete KEY (localStorage w)),
          (out w ++ shown text w).
        split; [by destruct w|]. split; by right.
      * exists (Throw TypeError), (nextNotificationTime w),
          (localStorage w), (out w).
        split; [|split; by left]. unfold run_callback, Get. unfold_M.
        rewrite Hg. rewrite showNotification_throws by assumption.
        by destruct w.
    + exists (Throw TypeError), (nextNotificationTime w),
        (localStorage w), (out w).
      split; [|split; by left]. unfold run_callback, Get. unfold_M.
      rewrite Hg. by destruct w.
Qed.

(** Showing one more notice after [m] changes nothing but the output. *)
Lemma exec_then_emit {A} (m : M A) (o : output) (w : world) :
  exists o', exec (m ;; emit o) w = with_out o' (exec m w).
Proof.
  unfold exec. unfold_M. destruct (m w) as [[a|e] w']; cbn.
  - eauto.
  - exists (out w'). by destruct w'.
Qed.

Lemma fire_shape (h : positive) (w w' : world) :
  fire h w = Some w' ->
  exists t nx ls o,
    timers w !! h = Some t /\ due t <= clock w /\
    w' = with_out o (with_localStorage ls (with_next nx
           (with_timers (delete h (timers w)) w))) /\
    (nx = nextNotificationTime w \/ nx = None) /\
    (ls = localStorage w \/ ls = delete KEY (localStorage w)).
Proof.
  unfold fire. destruct (timers w !! h) as [t|]; [|done].
  destruct (Z.leb_spec (due t) (clock w)); [|done]. intros [= <-].
  destruct (run_callback_shape (handler t)
              (with_timers (delete h (timers w)) w))
    as (oc & nx & ls & o & E & Hnx & Hls).
  exists t, nx, ls, o. unfold exec. rewrite E. by destruct w.
Qed.

End Shapes.

(** ** One slot *)

Section Slot.

Context {rt : Runtime}.

(** In a state the plugin can reach, clearing the timeout that [timer]
    refers to leaves nothing armed. *)
Lemma slot_cleared (w : world) :
  well_formed w ->
  match timer w with
  | Some h => delete h (timers w)
  | None => timers w
  end = ∅.
Proof.
  intros (Hslot & _ & _). apply map_eq. intros h. rewrite lookup_empty.
  destruct (timer w) as [h0|] eqn:Ht.
  - destruct (decide (h0 = h)) as [->|Hne]; [apply lookup_delete_eq|].
    rewrite lookup_delete_ne by done.
    destruct (timers w !! h) eqn:Hh; [|done].
    specialize (Hslot h (mk_is_Some _ _ Hh)). congruence.
  - destruct (timers w !! h) eqn:Hh; [|done].
    specialize (Hslot h (mk_is_Some _ _ Hh)). congruence.
Qed.

Lemma slot_deleted (w : world) (h : positive) :
  well_formed w -> is_Some (timers w !! h) -> delete h (timers w) = ∅.
Proof.
  intros Hw Hh. pose proof (slot_cleared w Hw) as E.
  destruct Hw as (Hslot & _). by rewrite (Hslot h Hh) in E.
Qed.

Lemma target_armed (cb : callback) (d : Date) (c : Z) :
  target (MkTimeout cb (num_sub (getTime d) (Num c)) c) = getTime d.
Proof.
  unfold target. destruct d as [[|t]]; cbn; [done|]. f_equal. lia.
Qed.

(** A quick command is [scheduleNotification] at the later reading of the
    clock, for a date worked out from the earlier one. *)
Lemma quick_5min_exec (e : Z) (w : world) :
  exists o,
    exec (quick_5min_reminder e) w =
    with_out o
      (exec (scheduleNotification
               (Date_of_number (Num (clock w + 5 * 60000)))
               "Напоминание через 5 минут!")
            (with_clock (clock w + e) w)).
Proof.
  destruct (exec_then_emit
              (scheduleNotification
                 (Date_of_number (Num (clock w + 5 * 60000)))
                 "Напоминание через 5 минут!")
              (ShowNotice (NoticeSetForTime
                 (Date_of_number (Num (clock w + 5 * 60000)))))
              (with_clock (clock w + e) w)) as [o E].
  exists o. by rewrite <- E.
Qed.

Lemma tomorrow_exec (e : Z) (w : world) :
  exists o,
    exec (tomorrow_reminder e) w =
    with_out o
      (exec (scheduleNotification
               (Date_of_number (Num (clock w + 24 * 60 * 60000)))
               "Ежедневное напоминание")
            (with_clock (clock w + e) w)).
Proof.
  destruct (exec_then_emit
              (scheduleNotification
                 (Date_of_number (Num (clock w + 24 * 60 * 60000)))
                 "Ежедневное напоминание")
              (ShowNotice (NoticeSetForTomorrow
                 (Date_of_number (Num (clock w + 24 * 60 * 60000)))))
              (with_clock (clock w + e) w)) as [o E].
  exists o. by rewrite <- E.
Qed.

Lemma advances_tick (d : Z) (w : world) :
  0 <= d -> advances w (with_clock (clock w + d) w).
Proof.
  intros Hd. unfold advances, well_formed; cbn.
  split; [lia|]. split; [done|eauto].
Qed.

Lemma clock_schedule (d : Date) (msg : string) (w : world) :
  clock (exec (scheduleNotification d msg) w) = clock w.
Proof.
  unfold exec.
  by destruct (schedule_shape d msg w) as (oc & w' & -> & [->|(ls & o & -> & _)]).
Qed.

Lemma onload_exec (w : world) :
  exists o, exec onload w = with_out o (exec restoreScheduledNotifications w).
Proof. apply exec_then_emit. Qed.

(** [onunload] in a state the plugin can reach. *)
Lemma onunload_reached (w : world) :
  well_formed w ->
  onunload w =
    (Ret tt, with_out (out w ++ [ConsoleLog LogUnloaded]) (with_timers ∅ w)).
Proof.
  intros Hw. pose proof (slot_cleared w Hw) as E.
  unfold onunload. unfold_M.
  destruct w as [tm nx c ts nh ls g a o]; cbn in *.
  destruct tm; cbn; by rewrite E.
Qed.

Lemma run_then (es : list event) (e : event) (w w' : world) :
  run es w = Some w' -> run (es ++ [e]) w = step e w'.
Proof.
  revert w. induction es as [|x es IH]; intros w; cbn [run app].
  - intros [= <-]. by destruct (step e w).
  - destruct (step x w) as [w1|]; [apply IH|done].
Qed.

End Slot.

(** ** Every event advances *)

Section Advances.

Context {rt : Runtime}.

Lemma advances_frame (w : world) ls o :
  advances w (with_out o (with_localStorage ls w)).
Proof.
  unfold advances, well_formed; cbn. split; [lia|]. split; [done|]. eauto.
Qed.

Lemma advances_with_out (w w' : world) o :
  advances w w' -> advances w (with_out o w').
Proof. done. Qed.

Lemma advances_trans (w w' w'' : world) :
  advances w w' -> advances w' w'' -> clock w' = clock w'' ->
  advances w w''.
Proof.
  intros (Hc & Hw & Ht) (Hc' & Hw' & Ht') E. split; [lia|]. split; [tauto|].
  intros h t Hh. destruct (Ht' h t Hh) as [Hold|Hnew]; [|by right].
  destruct (Ht h t Hold) as [?|[? ?]]; [by left|right]. split; [congruence|done].
Qed.

Lemma advances_schedule (d : Date) (msg : string) (w : world) :
  advances w (exec (scheduleNotification d msg) w).
Proof.
  destruct (schedule_shape d msg w) as (oc & w' & E & [->|(ls & o & -> & Hd)]);
    unfold exec; rewrite E; cbn [snd].
  - apply (advances_frame w (localStorage w)).
  - unfold advances, well_formed, passed_guard; cbn. split; [lia|]. split.
    + intros (Hs & Hf & Hn). split; [|split; [|done]].
      * intros h Hh. destruct (timer w) as [h0|] eqn:Ht; map_facts; try done.
        all: match goal with H : is_Some _ |- _ => specialize (Hs _ H) end;
          congruence.
      * intros h [= <-]. lia.
    + intros h t Hh.
      destruct d as [[|T]]; cbn in *; destruct (timer w); map_facts; eauto.
      all: right; split; [done|lia].
Qed.

Lemma advances_restore (w : world) :
  timer w = None -> advances w (exec restoreScheduledNotifications w).
Proof.
  intros Hn. unfold exec.
  destruct (restore_shape w)
    as (w' & -> & [[o ->]|[->|(data & d & T & Hd & HT & ->)]]); cbn [snd].
  - apply (advances_frame w (localStorage w)).
  - apply (advances_frame w _ (out w)).
  - unfold advances, well_formed, passed_guard; cbn. rewrite Hd; cbn.
    split; [lia|]. split.
    + intros (Hs & Hf & _). split; [|split; [|done]].
      * intros h Hh. map_facts; try done.
        match goal with H : is_Some _ |- _ => specialize (Hs _ H) end.
        congruence.
      * intros h [= <-]. lia.
    + intros h t Hh. map_facts; eauto. right. split; [done|lia].
Qed.

Lemma advances_onload (w : world) :
  timer w = None -> advances w (exec onload w).
Proof.
  intros Hn. unfold onload.
  destruct (exec_then_emit restoreScheduledNotifications
              (ConsoleLog LogLoaded) w) as [o ->].
  by apply advances_with_out, advances_restore.
Qed.

Lemma clock_onload (w : world) : clock (exec onload w) = clock w.
Proof.
  unfold onload.
  destruct (exec_then_emit restoreScheduledNotifications
              (ConsoleLog LogLoaded) w) as [o ->].
  unfold exec.
  destruct (restore_shape w)
    as (w1 & -> & [[o1 ->]|[->|(data & d0 & T & _ & _ & ->)]]); done.
Qed.

Lemma advances_unload (w : world) :
  advances w (new_instance (exec onunload w)).
Proof.
  unfold onunload, exec. unfold_M.
  unfold advances, well_formed; destruct w as [tm nx c ts nh ls g a o].
  destruct tm as [h0|]; cbn; (split; [lia|]).
  - split.
    + intros (Hs & Hf & _). split; [|done]. intros h Hh. map_facts.
      match goal with H : is_Some _ |- _ => specialize (Hs _ H) end.
      congruence.
    + intros h t Hh. map_facts. by left.
  - split; [|eauto]. intros (Hs & Hf & _). split; [|done]. intros h Hh.
    specialize (Hs _ Hh). done.
Qed.

Lemma advances_restart (w : world) :
  advances w (new_instance (with_nextHandle 1%positive (with_timers ∅ w))).
Proof.
  unfold advances, well_formed; cbn. split; [lia|]. split.
  - intros _. split; [|done]. intros h Hh. map_facts.
  - intros h t Hh. map_facts.
Qed.

Lemma advances_cancel (w : world) : advances w (exec cancel w).
Proof.
  unfold exec. destruct (timer w) as [h|] eqn:Ht.
  - rewrite (cancel_handle w h Ht).
    unfold advances, well_formed; cbn. split; [lia|]. split.
    + intros (Hs & Hf & _). split; [|done]. intros h' Hh. map_facts.
      match goal with H : is_Some _ |- _ => specialize (Hs _ H) end.
      congruence.
    + intros h' t Hh. map_facts. by left.
  - rewrite (cancel_null w Ht).
    apply (advances_frame w (localStorage w) (out w)).
Qed.

Lemma advances_fire (h : positive) (w w' : world) :
  fire h w = Some w' -> advances w w'.
Proof.
  intros Hf.
  destruct (fire_shape h w w' Hf)
    as (t & nx & ls & o & Ht & Hd & -> & Hnx & _).
  unfold advances, well_formed; cbn. split; [lia|]. split.
  - intros (Hs & Hf' & Hn). split; [|split; [done|]].
    + intros h' Hh. map_facts; eauto.
    + intros Hnone. destruct Hnx as [->| ->]; [by apply Hn|done].
  - intros h' t' Hh. map_facts; by left.
Qed.

Lemma step_advances (e : event) (w w' : world) :
  step e w = Some w' -> advances w w'.
Proof.
  destruct e; cbn [step].
  - destruct (wf_Date dateTime); [|done]. intros [= <-].
    apply advances_schedule.
  - destruct (wf_Date _); [|done]. intros [= <-]. apply advances_schedule.
  - destruct (Z.leb_spec 0 elapsed); [|done]. intros [= <-].
    destruct (quick_5min_exec elapsed w) as [o ->]. apply advances_with_out.
    eapply advances_trans;
      [by apply advances_tick|apply advances_schedule|
       by rewrite clock_schedule].
  - destruct (Z.leb_spec 0 elapsed); [|done]. intros [= <-].
    destruct (tomorrow_exec elapsed w) as [o ->]. apply advances_with_out.
    eapply advances_trans;
      [by apply advances_tick|apply advances_schedule|
       by rewrite clock_schedule].
  - intros [= <-]. apply advances_cancel.
  - apply advances_fire.
  - destruct (Z.leb_spec 0 d); [|done]. intros [= <-].
    by apply advances_tick.
  - intros [= <-].
    eapply advances_trans; [apply advances_unload| |].
    + by apply advances_onload.
    + by rewrite clock_onload.
  - intros [= <-].
    eapply advances_trans; [apply advances_restart| |].
    + by apply advances_onload.
    + by rewrite clock_onload.
Qed.

Lemma boot_well_formed ls now g a : well_formed (boot ls now g a).
Proof.
  unfold boot.
  match goal with
  | |- well_formed (exec onload ?w0) =>
      destruct (advances_onload w0 eq_refl) as (_ & Hw & _); apply Hw
  end.
  split; cbn; [|done]. intros h Hh. map_facts.
Qed.

Lemma run_well_formed (es : list event) (w w' : world) :
  well_formed w -> run es w = Some w' -> well_formed w'.
Proof.
  revert w. induction es as [|e es IH]; intros w Hw; cbn.
  - by intros [= <-].
  - destruct (step e w) as [w1|] eqn:Hs; [|done].
    apply IH. by apply (step_advances e w w1 Hs).
Qed.

End Advances.

(** ** Target times that have fired stay behind the clock *)

Section Firings.

Context {rt : Runtime}.



(** One that does not fit is due at once. *)
Lemma due_at_once (t : timeout) :
  fits t = false -> due t = armedAt t.
Proof.
  unfold fits, due. destruct (delay t) as [|d]; [done|].
  intros ->. lia.
Qed.









End Firings.

(** ** Records that [scheduleNotification] wrote *)

Section OwnRecords.

Context {rt : Runtime} {laws : RuntimeLaws rt}.

Lemma stringify_nonempty (a b c : string) :
  JSON_stringify (persisted a b c) <> ""%string.
Proof.
  intros E. pose proof (JSON_parse_stringify a b c) as H.
  rewrite E, JSON_parse_empty in H. discriminate.
Qed.

(** [restoreScheduledNotifications] reads back the target time of the
    record and compares it with the clock. *)
Lemma restore_own_record (w : world) (T : Z) (msg scheduledAt : string) :
  valid_time T ->
  localStorage w !! KEY =
    Some (JSON_stringify (persisted (toISOString_text T) msg scheduledAt)) ->
  restoreScheduledNotifications w =
    if clock w <? T
    then (Ret tt,
          armed_by_restore (persisted (toISOString_text T) msg scheduledAt)
            (At T) w)
    else (Ret tt, erased w).
Proof.
  intros HT Hs.
  rewrite (restore_parsed w _ _ Hs (stringify_nonempty _ _ _)
             (JSON_parse_stringify _ _ _)).
  cbn. rewrite (Date_parse_toISOString T HT). reflexivity.
Qed.

Lemma wf_Date_valid (t : Z) : wf_Date (At t) = true -> valid_time t.
Proof.
  unfold wf_Date, valid_time; cbn. intros [H1 H2]%andb_true_iff. lia.
Qed.

Lemma wf_Date_of_number (n : number) : wf_Date (Date_of_number n) = true.
Proof.
  destruct n as [|t]; [done|]. unfold wf_Date, Date_of_number; cbn.
  by destruct ((- maxTime <=? t) && (t <=? maxTime)) eqn:E.
Qed.

Lemma settled_with_out (w : world) o : settled w -> settled (with_out o w).
Proof. done. Qed.

Lemma settled_schedule (d : Date) (msg : string) (w : world) :
  wf_Date d = true -> settled w ->
  settled (exec (scheduleNotification d msg) w).
Proof.
  intros Hd [Hc Hn].
  destruct (schedule_shape d msg w) as (oc & w' & E & [->|(ls & o & -> & Hls)]);
    unfold exec; rewrite E; cbn [snd]; [done|].
  split; cbn; [|done]. destruct d as [[|t]]; cbn in Hls.
  - by subst.
  - destruct Hls as [_ ->]. right. exists t, msg, (toISOString_text (clock w)).
    split; [by apply wf_Date_valid|]. apply lookup_insert_eq.
Qed.

Lemma settled_restore (w : world) :
  clean (localStorage w) -> settled (exec restoreScheduledNotifications w).
Proof.
  intros Hc. unfold exec. destruct Hc as [Hn|(T & msg & c & HT & Hs)].
  - rewrite (restore_absent w Hn). split; [by left|done].
  - rewrite (restore_own_record w T msg c HT Hs).
    destruct (clock w <? T); cbn.
    + split; cbn; [|done]. right. by exists T, msg, c.
    + assert (delete KEY (localStorage w) !! KEY = None)
        by apply lookup_delete_eq.
      split; cbn; [by left|done].
Qed.

Lemma settled_onload (w : world) :
  clean (localStorage w) -> settled (exec onload w).
Proof.
  intros Hc. unfold onload.
  destruct (exec_then_emit restoreScheduledNotifications
              (ConsoleLog LogLoaded) w) as [o ->].
  by apply settled_with_out, settled_restore.
Qed.

Lemma settled_step (e : event) (w w' : world) :
  settled w -> step e w = Some w' -> settled w'.
Proof.
  intros Hw. destruct e; cbn [step].
  - destruct (wf_Date dateTime) eqn:Hd; [|done]. intros [= <-].
    by apply settled_schedule.
  - destruct (wf_Date _) eqn:Hd; [|done]. intros [= <-].
    by apply settled_schedule.
  - destruct (0 <=? elapsed); [|done]. intros [= <-].
    destruct (quick_5min_exec elapsed w) as [o ->].
    apply settled_with_out.
    by apply settled_schedule; [apply wf_Date_of_number|].
  - destruct (0 <=? elapsed); [|done]. intros [= <-].
    destruct (tomorrow_exec elapsed w) as [o ->].
    apply settled_with_out.
    by apply settled_schedule; [apply wf_Date_of_number|].
  - intros [= <-]. unfold exec.
    assert (delete KEY (localStorage w) !! KEY = None)
      by apply lookup_delete_eq.
    destruct (timer w) as [h|] eqn:Ht.
    + rewrite (cancel_handle w h Ht). split; cbn; [by left|done].
    + by rewrite (cancel_null w Ht).
  - intros Hf.
    destruct (fire_shape h w w' Hf)
      as (t & nx & ls & o & _ & _ & -> & _ & Hls).
    destruct Hw as [Hc Hn]. destruct Hls as [->| ->].
    + split; cbn; done.
    + assert (delete KEY (localStorage w) !! KEY = None)
        by apply lookup_delete_eq.
      split; cbn; [by left|done].
  - destruct (0 <=? d); [|done]. by intros [= <-].
  - intros [= <-]. apply settled_onload.
    destruct Hw as [Hc _]. unfold onunload, exec. unfold_M.
    by destruct w as [[?|] ? ? ? ? ? ? ? ?].
  - intros [= <-]. apply settled_onload. by destruct Hw.
Qed.

Lemma settled_run (es : list event) (w w' : world) :
  settled w -> run es w = Some w' -> settled w'.
Proof.
  revert w. induction es as [|e es IH]; intros w Hw; cbn.
  - by intros [= <-].
  - destruct (step e w) as [w1|] eqn:Hs; [|done].
    apply IH. by apply (settled_step e w w1).
Qed.

End OwnRecords.

(** ** The reference runtime keeps the laws *)

Module RefFacts.

Import Ref.

Lemma append_assoc (a b c : string) : (a +:+ b) +:+ c = a +:+ (b +:+ c).
Proof.
  induction a as [|x a IH]; [reflexivity|].
  change (String x ((a +:+ b) +:+ c) = String x (a +:+ (b +:+ c))).
  by rewrite IH.
Qed.

Lemma string_body_escape_char (c : ascii) (r : string) :
  string_body (escape_char c +:+ r) =
    match string_body r with
    | Some (t, rest) => Some (String c t, rest)
    | None => None
    end.
Proof. destruct c as [[] [] [] [] [] [] [] []]; reflexivity. Qed.

Lemma string_body_escape (s rest : string) :
  string_body (escape s +:+ String dquote rest) = Some (s, rest).
Proof.
  induction s as [|c s IH]; [reflexivity|].
  cbn [escape]. rewrite append_assoc, string_body_escape_char, IH. done.
Qed.

Lemma quote_append (s rest : string) :
  quote s +:+ rest = String dquote (escape s +:+ String dquote rest).
Proof.
  unfold quote. change (String dquote ?x +:+ rest) with (String dquote (x +:+ rest)).
  by rewrite append_assoc.
Qed.

Lemma parse_value_quote (f : nat) (s rest : string) :
  parse_value (S f) (quote s +:+ rest) = Some (VStr s, rest).
Proof.
  rewrite quote_append.
  change (parse_value (S f) (String dquote ?x))
    with (match string_body x with
          | Some (t, r) => Some (VStr t, r)
          | None => None
          end).
  by rewrite string_body_escape.
Qed.

Lemma parse_value_dquote (f : nat) (x : string) :
  parse_value (S f) (String dquote x) =
    match string_body x with
    | Some (t, r) => Some (VStr t, r)
    | None => None
    end.
Proof. reflexivity. Qed.

(** One member whose value is a string, up to the separator. *)
Lemma members_string (g f : nat) (k v : string) (sep : ascii) (rest : string)
    (acc : list (string * value)) :
  is_ws sep = false ->
  members (parse_value (S g)) (S f)
    (String dquote (escape k +:+ String dquote
       (String ":" (String dquote (escape v +:+ String dquote
          (String sep rest)))))) acc =
    if code sep =? 44
    then members (parse_value (S g)) f rest (set_prop k (VStr v) acc)
    else if code sep =? 125 then Some (set_prop k (VStr v) acc, rest)
    else None.
Proof.
  intros Hsep.
  change (members (parse_value (S g)) (S f) (String dquote ?x) acc)
    with (match string_body x with
          | Some (k', r1) =>
              match skip_ws r1 with
              | String colon r2 =>
                  if code colon =? 58 then
                    match parse_value (S g) r2 with
                    | Some (v', r3) =>
                        let acc' := set_prop k' v' acc in
                        match skip_ws r3 with
                        | String c r4 =>
                            if code c =? 44
                            then members (parse_value (S g)) f r4 acc'
                            else if code c =? 125 then Some (acc', r4)
                            else None
                        | EmptyString => None
                        end
                    | None => None
                    end
                  else None
              | EmptyString => None
              end
          | None => None
          end).
  rewrite string_body_escape.
  change (skip_ws (String ":" ?x)) with (String ":" x).
  change (code ":" =? 58) with true. cbv iota.
  rewrite parse_value_dquote, string_body_escape.
  cbv zeta. cbn [skip_ws]. rewrite Hsep. reflexivity.
Qed.

Lemma length_append_cons (a b : string) (c : ascii) :
  String.length (a +:+ String c b) = S (String.length (a +:+ b)).
Proof.
  induction a as [|x a IH]; [reflexivity|].
  change (S (String.length (a +:+ String c b))
          = S (S (String.length (a +:+ b)))).
  by rewrite IH.
Qed.

Lemma JSON_parse_stringify (a b c : string) :
  JSON_parse (stringify (persisted a b c)) = Some (persisted a b c).
Proof.
  unfold JSON_parse, persisted.
  cbn [stringify].
  rewrite !append_assoc, !quote_append.
  repeat change (String ?x ?y +:+ ?z) with (String x (y +:+ z)).
  repeat change (EmptyString +:+ ?z) with z.
  repeat change (String.length (String ?x ?y)) with (S (String.length y)).
  rewrite length_append_cons.
  match goal with
  | |- context [parse_value (S (S (S (S ?l))))] => generalize l
  end.
  intros n.
  change (parse_value (S (S (S (S n)))) (String "{" (String dquote ?x)))
    with (match members (parse_value (S (S (S n)))) (S (S (S n)))
                  (String dquote x) [] with
          | Some (props, rest) => Some (VObj props, rest)
          | None => None
          end).
  rewrite members_string by reflexivity.
  change (code "," =? 44) with true. cbv iota.
  rewrite members_string by reflexivity.
  change (code "," =? 44) with true. cbv iota.
  rewrite members_string by reflexivity.
  reflexivity.
Qed.
(** **** The calendar round trip *)

Lemma year_of_era (doe : Z) :
  0 <= doe < 146097 ->
  let yoe := (doe - doe / 1460 + doe / 36524 - doe / 146096) / 365 in
  let doy := doe - (365 * yoe + yoe / 4 - yoe / 100) in
  0 <= yoe <= 399 /\ 0 <= doy <= 365 /\
  (doy = 365 ->
   ((yoe + 1) mod 4 = 0 /\ (yoe + 1) mod 100 <> 0) \/ (yoe + 1) mod 400 = 0).
Proof. intros H yoe doy. subst yoe doy. Z.div_mod_to_equations; lia. Qed.

Lemma month_and_day (doy : Z) :
  0 <= doy <= 365 ->
  let mp := (5 * doy + 2) / 153 in
  let d := doy - (153 * mp + 2) / 5 + 1 in
  0 <= mp <= 11 /\ 1 <= d <= 31 /\
  (mp = 11 -> d <= 29) /\ (mp = 11 -> doy <= 364 -> d <= 28) /\
  (mp = 1 \/ mp = 3 \/ mp = 6 \/ mp = 8 -> d <= 30).
Proof. intros H mp d. subst mp d. Z.div_mod_to_equations; lia. Qed.

Lemma leap_era (a era : Z) : leap (a + era * 400) = leap a.
Proof.
  unfold leap.
  replace ((a + era * 400) mod 4) with (a mod 4)
    by (Z.div_mod_to_equations; lia).
  replace ((a + era * 400) mod 100) with (a mod 100)
    by (Z.div_mod_to_equations; lia).
  replace ((a + era * 400) mod 400) with (a mod 400)
    by (Z.div_mod_to_equations; lia).
  reflexivity.
Qed.

Lemma leap_true (y : Z) :
  (y mod 4 = 0 /\ y mod 100 <> 0) \/ y mod 400 = 0 -> leap y = true.
Proof.
  unfold leap. intros [[H4 H100]|H400].
  - apply Z.eqb_eq in H4. apply Z.eqb_neq in H100. by rewrite H4, H100.
  - apply Z.eqb_eq in H400. rewrite H400. apply orb_true_r.
Qed.

Lemma civil_of_days_spec (z : Z) :
  exists y m d,
    civil_of_days z = (y, m, d) /\ days_of_civil y m d = z /\
    1 <= m <= 12 /\ 1 <= d <= days_in_month y m /\
    (z + 719468) / 146097 * 400 <= y <= (z + 719468) / 146097 * 400 + 400.
Proof.
  unfold civil_of_days.
  set (era := (z + 719468) / 146097). set (doe := (z + 719468) mod 146097).
  assert (Hz : z + 719468 = 146097 * era + doe /\ 0 <= doe < 146097).
  { subst era doe. Z.div_mod_to_equations; lia. }
  destruct (year_of_era doe (proj2 Hz)) as (Hyoe & Hdoy & Hleap).
  set (yoe := (doe - doe / 1460 + doe / 36524 - doe / 146096) / 365) in *.
  set (doy := doe - (365 * yoe + yoe / 4 - yoe / 100)) in *.
  destruct (month_and_day doy Hdoy) as (Hmp & Hd & H29 & H28 & H30).
  set (mp := (5 * doy + 2) / 153) in *.
  set (d := doy - (153 * mp + 2) / 5 + 1) in *.
  set (m := if mp <? 10 then mp + 3 else mp - 9).
  assert (Hm : (mp < 10 /\ m = mp + 3) \/ (10 <= mp /\ m = mp - 9)).
  { subst m. destruct (Z.ltb_spec mp 10); lia. }
  do 3 eexists. split; [reflexivity|].
  assert (Hback : (if 2 <? m then m - 3 else m + 9) = mp).
  { destruct (Z.ltb_spec 2 m); lia. }
  split; [|split; [lia|split; [split; [lia|]|]]].
  - unfold days_of_civil. rewrite Hback.
    replace ((if m <=? 2 then 1 else 0) + yoe + era * 400
             - (if m <=? 2 then 1 else 0)) with (yoe + era * 400) by lia.
    replace ((yoe + era * 400) / 400) with era
      by (Z.div_mod_to_equations; lia).
    replace ((yoe + era * 400) mod 400) with yoe
      by (Z.div_mod_to_equations; lia).
    subst d doy. lia.
  - unfold days_in_month.
    destruct (Z.eqb_spec m 2) as [E2|N2].
    + assert (Hy : (if m <=? 2 then 1 else 0) + yoe + era * 400
                   = (yoe + 1) + era * 400)
        by (destruct (Z.leb_spec m 2); lia).
      rewrite Hy, leap_era. destruct (leap (yoe + 1)) eqn:El; [lia|].
      apply H28; [lia|]. destruct (Z.eq_dec doy 365) as [E365|]; [|lia].
      rewrite (leap_true _ (Hleap E365)) in El. discriminate.
    + destruct ((m =? 4) || (m =? 6) || (m =? 9) || (m =? 11)) eqn:E30;
        [|lia].
      apply H30. rewrite !orb_true_iff, !Z.eqb_eq in E30. lia.
  - destruct (Z.leb_spec m 2); lia.
Qed.

Lemma time_of_day (ms : Z) :
  0 <= ms < msPerDay ->
  0 <= ms / 3600000 <= 23 /\ 0 <= ms / 60000 mod 60 <= 59 /\
  0 <= ms / 1000 mod 60 <= 59 /\ 0 <= ms mod 1000 <= 999 /\
  ms / 3600000 * 3600000 + ms / 60000 mod 60 * 60000
  + ms / 1000 mod 60 * 1000 + ms mod 1000 = ms.
Proof. unfold msPerDay. intros H. Z.div_mod_to_equations; lia. Qed.

(** **** Reading back what was written *)

Lemma code_char (n : Z) : 0 <= n < 256 -> code (char n) = n.
Proof.
  intros H. unfold code, char.
  rewrite N_ascii_embedding by lia. lia.
Qed.

Lemma code_digit (k : Z) : 0 <= k <= 9 -> code (digit k) = 48 + k.
Proof. intros H. unfold digit. apply code_char. lia. Qed.

Lemma digit_value_digit (k : Z) :
  0 <= k <= 9 -> digit_value (digit k) = Some k.
Proof.
  intros H. unfold digit_value, digit. rewrite code_char by lia.
  destruct (Z.leb_spec 48 (48 + k)); [|lia].
  destruct (Z.leb_spec (48 + k) 57); [|lia].
  cbn. f_equal. lia.
Qed.

Lemma take_pad2 (n acc : Z) (rest : string) :
  0 <= n <= 99 ->
  take_digits 2 (pad2 n +:+ rest) acc = Some (acc * 100 + n, rest).
Proof.
  intros H.
  change (pad2 n +:+ rest)
    with (String (digit (n / 10)) (String (digit (n mod 10)) rest)).
  cbn [take_digits].
  rewrite !digit_value_digit by (Z.div_mod_to_equations; lia).
  do 2 f_equal. Z.div_mod_to_equations; lia.
Qed.

Lemma take_pad3 (n acc : Z) (rest : string) :
  0 <= n <= 999 ->
  take_digits 3 (pad3 n +:+ rest) acc = Some (acc * 1000 + n, rest).
Proof.
  intros H.
  change (take_digits 3 (pad3 n +:+ rest) acc)
    with (match digit_value (digit (n / 100)) with
          | Some d => take_digits 2 (pad2 (n mod 100) +:+ rest) (acc * 10 + d)
          | None => None
          end).
  rewrite digit_value_digit by (Z.div_mod_to_equations; lia).
  rewrite take_pad2 by (Z.div_mod_to_equations; lia).
  do 2 f_equal. Z.div_mod_to_equations; lia.
Qed.

Lemma take_pad4 (n acc : Z) (rest : string) :
  0 <= n <= 9999 ->
  take_digits 4 (pad4 n +:+ rest) acc = Some (acc * 10000 + n, rest).
Proof.
  intros H.
  change (take_digits 4 (pad4 n +:+ rest) acc)
    with (match digit_value (digit (n / 1000)) with
          | Some d => take_digits 3 (pad3 (n mod 1000) +:+ rest) (acc * 10 + d)
          | None => None
          end).
  rewrite digit_value_digit by (Z.div_mod_to_equations; lia).
  rewrite take_pad3 by (Z.div_mod_to_equations; lia).
  do 2 f_equal. Z.div_mod_to_equations; lia.
Qed.

Lemma take_pad6 (n acc : Z) (rest : string) :
  0 <= n <= 999999 ->
  take_digits 6 (pad6 n +:+ rest) acc = Some (acc * 1000000 + n, rest).
Proof.
  intros H.
  change (take_digits 6 (pad6 n +:+ rest) acc)
    with (match digit_value (digit (n / 100000)) with
          | Some d =>
              match digit_value (digit (n / 10000 mod 10)) with
              | Some d' =>
                  take_digits 4 (pad4 (n mod 10000) +:+ rest)
                    ((acc * 10 + d) * 10 + d')
              | None => None
              end
          | None => None
          end).
  rewrite !digit_value_digit by (Z.div_mod_to_equations; lia).
  rewrite take_pad4 by (Z.div_mod_to_equations; lia).
  do 2 f_equal. Z.div_mod_to_equations; lia.
Qed.

Lemma year_year_text (y : Z) (rest : string) :
  -999999 <= y <= 999999 -> year (year_text y +:+ rest) = Some (y, rest).
Proof.
  intros H. unfold year_text.
  destruct (Z.leb_spec 0 y); cbn [andb].
  - destruct (Z.leb_spec y 9999).
    + change (pad4 y +:+ rest)
        with (String (digit (y / 1000)) (pad3 (y mod 1000) +:+ rest)).
      unfold year. rewrite code_digit by (Z.div_mod_to_equations; lia).
      destruct (Z.eqb_spec (48 + y / 1000) 43);
        [Z.div_mod_to_equations; lia|].
      destruct (Z.eqb_spec (48 + y / 1000) 45);
        [Z.div_mod_to_equations; lia|].
      change (String (digit (y / 1000)) (pad3 (y mod 1000) +:+ rest))
        with (pad4 y +:+ rest).
      rewrite take_pad4 by lia. do 2 f_equal.
    + destruct (Z.ltb_spec y 0); [lia|].
      change (String "+" (pad6 y) +:+ rest) with (String "+" (pad6 y +:+ rest)).
      unfold year. change (code "+" =? 43) with true. cbv iota.
      rewrite take_pad6 by lia. do 2 f_equal.
  - destruct (Z.ltb_spec y 0); [|lia].
    change (String "-" (pad6 (- y)) +:+ rest)
      with (String "-" (pad6 (- y) +:+ rest)).
    unfold year. change (code "-" =? 43) with false.
    change (code "-" =? 45) with true. cbv iota.
    rewrite take_pad6 by lia.
    destruct (Z.eqb_spec (0 * 1000000 + - y) 0); [lia|]. do 2 f_equal. lia.
Qed.

Lemma expect_head (c : ascii) (rest : string) :
  expect c (String c EmptyString +:+ rest) = Some rest.
Proof.
  change (String c EmptyString +:+ rest) with (String c rest).
  unfold expect. by rewrite Z.eqb_refl.
Qed.

Lemma fields_iso_text (y m d h mi sec ms : Z) :
  -999999 <= y <= 999999 -> 0 <= m <= 99 -> 0 <= d <= 99 -> 0 <= h <= 99 ->
  0 <= mi <= 99 -> 0 <= sec <= 99 -> 0 <= ms <= 999 ->
  fields (iso_text y m d h mi sec ms) = Some (y, m, d, h, mi, sec, ms).
Proof.
  intros Hy Hm Hd Hh Hmi Hsec Hms. unfold fields, iso_text.
  rewrite year_year_text by done. cbn [mbind option_bind].
  repeat (rewrite expect_head; cbn [mbind option_bind];
          rewrite ?take_pad2, ?take_pad3 by done; cbn [mbind option_bind]).
  change ("Z" : string) with (String "Z" EmptyString +:+ EmptyString).
  rewrite expect_head. reflexivity.
Qed.

Lemma Date_parse_toISOString (t : Z) :
  valid_time t -> Date_parse (toISOString_text t) = Num t.
Proof.
  unfold valid_time, maxTime. intros Ht. unfold toISOString_text.
  set (day := t / msPerDay). set (ms := t mod msPerDay).
  assert (Hday : t = msPerDay * day + ms /\ 0 <= ms < msPerDay).
  { subst day ms. unfold msPerDay. Z.div_mod_to_equations; lia. }
  destruct (civil_of_days_spec day) as (y & m & d & -> & Hback & Hm & Hd & Hy).
  destruct (time_of_day ms (proj2 Hday)) as (Hh & Hmi & Hsec & Hms & Hsum).
  assert (Hdim : days_in_month y m <= 31).
  { unfold days_in_month. repeat case_match; lia. }
  assert (Hera : -700 <= (day + 719468) / 146097 <= 700).
  { unfold msPerDay in Hday. Z.div_mod_to_equations; lia. }
  unfold Date_parse. rewrite fields_iso_text by lia.
  rewrite Hback.
  replace (day * msPerDay + ms / 3600000 * 3600000
           + ms / 60000 mod 60 * 60000 + ms / 1000 mod 60 * 1000
           + ms mod 1000) with t by lia.
  unfold maxTime.
  repeat match goal with
         | |- context [?a <=? ?b] => rewrite (proj2 (Z.leb_le a b)) by lia
         end.
  reflexivity.
Qed.

End RefFacts.

Example toISOString_2023 :
  Ref.toISOString_text 1700000000123 = "2023-11-14T22:13:20.123Z"%string.
Proof. reflexivity. Qed.

Example toISOString_first_day :
  Ref.toISOString_text (- maxTime) = "-271821-04-20T00:00:00.000Z"%string.
Proof. reflexivity. Qed.

Example Date_parse_leap_day :
  Ref.Date_parse "2024-02-29T12:00:00.000Z" = Num 1709208000000 /\
  Ref.Date_parse "2023-02-29T12:00:00.000Z" = NaN.
Proof. split; reflexivity. Qed.

Example JSON_parse_nested :
  Ref.JSON_parse "[1, {}, [null, true], -20]"
  = Some (VArr [VNum (Ref.double false 1); VObj [];
                VArr [VNull; VBool true]; VNum (Ref.double true 20)]).
Proof. reflexivity. Qed.

Lemma RefRuntime_laws : RuntimeLaws RefRuntime.
Proof.
  split.
  - apply RefFacts.Date_parse_toISOString.
  - apply RefFacts.JSON_parse_stringify.
  - reflexivity.
Qed.

(** * The claims *)



(** C2. For every target time at or before the current time,
    [scheduleNotification] shows the notice that asks for a future time and
    changes nothing else: the pending time, [timer], the armed timeouts and
    [localStorage] are as before. *)
Theorem C2_schedule_past_rejected
    {rt : Runtime} (w : world) (fireAt : Z) (msg : string) :
  fireAt <= clock w ->
  exists w',
    scheduleNotification (At fireAt) msg w = (Ret tt, w') /\
    w' = with_out (out w ++ [ShowNotice NoticeChooseFuture]) w /\
    nextNotificationTime w' = nextNotificationTime w /\
    timer w' = timer w /\ timers w' = timers w /\
    localStorage w' = localStorage w.
Proof.
  intros H. eexists. split; [by apply scheduleNotification_past|]. done.
Qed.

Lemma C2_witness :
  1000 <= clock fresh_start /\
  scheduleNotification (rt := RefRuntime) (At 1000) "late" fresh_start
  = (Ret tt,
     with_out (out fresh_start ++ [ShowNotice NoticeChooseFuture])
       fresh_start).
Proof.
  assert (H : 1000 <= clock fresh_start) by (intros E; discriminate E).
  split; [exact H|].
  destruct (C2_schedule_past_rejected
              (rt := RefRuntime) fresh_start 1000 "late" H)
    as (w' & E & -> & _).
  exact E.
Defined.

(** C3. An Invalid Date is not rejected: its delay is NaN, which is not
    [<= 0], so [scheduleNotification] sets the pending time, clears the
    timeout that [timer] referred to, arms a timeout with delay NaN and then
    throws the RangeError of [toISOString], leaving [localStorage] as it
    was and showing no notice. *)
Theorem C3_invalid_date_passes_the_guard
    {rt : Runtime} (w : world) (msg : string) :
  scheduleNotification InvalidDate msg w
  = (Throw RangeError, armed_by_schedule InvalidDate msg w) /\
  nextNotificationTime (armed_by_schedule InvalidDate msg w)
  = Some InvalidDate /\
  timers (armed_by_schedule InvalidDate msg w) !! nextHandle w
  = Some (MkTimeout (ScheduledCallback msg) NaN (clock w)) /\
  localStorage (armed_by_schedule InvalidDate msg w) = localStorage w /\
  out (armed_by_schedule InvalidDate msg w) = out w.
Proof.
  split; [apply scheduleNotification_invalid|].
  cbn. repeat split. apply lookup_insert_eq.
Qed.

(** The same through the dialog, when the date text is empty. *)
Example modal_with_empty_date :
  modal_schedule (rt := RefRuntime) "" "12:00" "x" fresh_start
  = (Throw RangeError, armed_by_schedule InvalidDate "x" fresh_start).
Proof. apply scheduleNotification_invalid. Qed.

(** C4. In every state the plugin can reach, after a call of
    [scheduleNotification] that is accepted exactly one timeout is armed:
    the one of this call, under the handle [timer] now holds. Whatever was
    armed before is no longer armed, so the host cannot run it. *)
Theorem C4_exactly_one_trigger_armed
    {rt : Runtime} (ls : gmap string string) (now : Z) (g a : bool)
    (es : list event) (w : world) (fireAt : Z) (msg : string) :
  run es (boot ls now g a) = Some w ->
  clock w < fireAt ->
  exists w',
    scheduleNotification (At fireAt) msg w = (Ret tt, w') /\
    timers w' =
      {[ nextHandle w :=
           MkTimeout (ScheduledCallback msg) (Num (fireAt - clock w))
             (clock w) ]} /\
    timer w' = Some (nextHandle w) /\
    forall h, is_Some (timers w !! h) ->
              timers w' !! h = None /\ fire h w' = None.
Proof.
  intros Hrun Hfuture.
  pose proof (run_well_formed es _ w (boot_well_formed ls now g a) Hrun)
    as (Hslot & Hfresh & _).
  eexists. split; [by apply scheduleNotification_future|]. cbn.
  assert (Hempty : match timer w with
                   | Some h => delete h (timers w)
                   | None => timers w
                   end = ∅).
  { apply map_eq. intros h. rewrite lookup_empty.
    destruct (timer w) as [h0|] eqn:Ht.
    - destruct (decide (h0 = h)) as [->|Hne]; [apply lookup_delete_eq|].
      rewrite lookup_delete_ne by done.
      destruct (timers w !! h) eqn:Hh; [|done].
      specialize (Hslot h (mk_is_Some _ _ Hh)). congruence.
    - destruct (timers w !! h) eqn:Hh; [|done].
      specialize (Hslot h (mk_is_Some _ _ Hh)). congruence. }
  rewrite Hempty. split; [apply insert_empty|]. split; [done|].
  intros h Hh. pose proof (Hslot h Hh) as Ht. pose proof (Hfresh h Ht) as Hlt.
  assert (Hnone : <[nextHandle w :=
                      MkTimeout (ScheduledCallback msg)
                        (Num (fireAt - clock w)) (clock w)]>
                    (∅ : gmap positive timeout) !! h = None).
  { rewrite lookup_insert_ne by lia. apply lookup_empty. }
  split; [done|]. unfold fire; cbn. rewrite Hempty. by rewrite Hnone.
Qed.

Lemma C4_witness :
  run (rt := RefRuntime) [Schedule (At 5000) "first"]
    (boot (rt := RefRuntime) ∅ 1000 false false) = Some first_pending /\
  clock first_pending < 9000 /\
  exists w',
    scheduleNotification (rt := RefRuntime) (At 9000) "second" first_pending
    = (Ret tt, w') /\
    timers w' = {[ 2%positive :=
                     MkTimeout (ScheduledCallback "second") (Num 8000) 1000 ]} /\
    timers w' !! 1%positive = None.
Proof.
  assert (Hrun : run (rt := RefRuntime) [Schedule (At 5000) "first"]
                   (boot (rt := RefRuntime) ∅ 1000 false false)
                 = Some first_pending) by reflexivity.
  assert (H : clock first_pending < 9000) by reflexivity.
  split; [exact Hrun|]. split; [exact H|].
  destruct (C4_exactly_one_trigger_armed (rt := RefRuntime)
              ∅ 1000 false false _ first_pending 9000 "second" Hrun H)
    as (w' & E & Ht & _ & Hold).
  exists w'. split; [exact E|]. split; [exact Ht|].
  apply (Hold 1%positive). vm_compute. eauto.
Defined.

(** C5, amended. [restoreScheduledNotifications] by cases. Without an
    item under [KEY] it changes nothing. With a record whose [dateTime]
    reads as a time [T]: if [T] is not after the clock it removes the item
    and changes nothing else; if [T] is after the clock it sets the pending
    time to [T] and arms a timeout for the delay [T - now]. When the host
    later runs that timeout and the record's message converts to text, as a
    string does, the message is shown, the pending time is cleared and the
    item under [KEY] is removed; when the message does not convert, the
    callback throws and the timeout is gone, but the pending time and the
    item stay. *)
Theorem C5_restore_case_analysis {rt : Runtime} (w : world) :
  (localStorage w !! KEY = None ->
   restoreScheduledNotifications w = (Ret tt, w)) /\
  (forall s data v T,
     localStorage w !! KEY = Some s -> s <> ""%string ->
     JSON_parse s = Some data ->
     get_prop data "dateTime" = Some v -> date_of v = Some (At T) ->
     (T <= clock w ->
      restoreScheduledNotifications w = (Ret tt, erased w)) /\
     (clock w < T ->
      restoreScheduledNotifications w
      = (Ret tt, armed_by_restore data (At T) w) /\
      nextNotificationTime (armed_by_restore data (At T) w) = Some (At T) /\
      timer (armed_by_restore data (At T) w) = Some (nextHandle w) /\
      timers (armed_by_restore data (At T) w)
      = <[nextHandle w :=
            MkTimeout (RestoredCallback data) (Num (T - clock w)) (clock w)]>
          (timers w) /\
      exists m,
        get_prop data "message" = Some m /\
        (forall text, m = VStr text -> to_string m = Some text) /\
        forall w2,
          timers w2 !! nextHandle w
          = Some (MkTimeout (RestoredCallback data) (Num (T - clock w))
                    (clock w)) ->
          T <= clock w2 ->
          fire (nextHandle w) w2 =
            Some (match to_string m with
                  | Some text =>
                      erased (with_next None
                        (with_out (out w2 ++ shown text w2)
                           (with_timers
                              (delete (nextHandle w) (timers w2)) w2)))
                  | None =>
                      with_timers (delete (nextHandle w) (timers w2)) w2
                  end))).
Proof.
  split; [apply restore_absent|].
  intros s data v T Hs Hne Hp Hg Hd.
  rewrite (restore_parsed w s data Hs Hne Hp), Hg. cbn. rewrite Hd. cbn.
  split; intros HT.
  - destruct (Z.ltb_spec (clock w) T); [lia|done].
  - destruct (Z.ltb_spec (clock w) T); [|lia].
    split; [done|]. split; [done|]. split; [done|]. split; [done|].
    destruct (get_prop_defined data v "dateTime" "message" Hg) as [m Hm].
    exists m. split; [exact Hm|]. split; [by intros text ->|].
    intros w2 Hw2 HT2.
    rewrite (fire_due _ _ _ Hw2)
      by (pose proof (due_by_target (RestoredCallback data) T (clock w));
          lia).
    cbn [handler]. rewrite exec_restored_callback, Hm. cbn.
    by destruct (to_string m).
Qed.

(** The record of the first reminder, found at second 3, is armed again, and
    at second 5 its callback shows the message and removes the record. *)
Lemma C5_witness :
  restoreScheduledNotifications (rt := RefRuntime) restart_before
  = (Ret tt, armed_by_restore
               (persisted "1970-01-01T00:00:05.000Z" "first"
                          "1970-01-01T00:00:01.000Z")
               (At 5000) restart_before) /\
  exists w3,
    fire (rt := RefRuntime) 1%positive
      (with_clock 5000
         (armed_by_restore
            (persisted "1970-01-01T00:00:05.000Z" "first"
                       "1970-01-01T00:00:01.000Z")
            (At 5000) restart_before)) = Some w3 /\
    nextNotificationTime w3 = None /\
    localStorage w3 !! KEY = None /\
    timers w3 = ∅ /\
    out w3 = [ConsoleLog (LogRestored (At 5000));
              ShowNotice (NoticeBell "first")].
Proof.
  destruct (proj2 (C5_restore_case_analysis
                     (rt := RefRuntime) restart_before)
              (Ref.stringify (persisted "1970-01-01T00:00:05.000Z" "first"
                                        "1970-01-01T00:00:01.000Z"))
              (persisted "1970-01-01T00:00:05.000Z" "first"
                         "1970-01-01T00:00:01.000Z")
              (VStr "1970-01-01T00:00:05.000Z") 5000)
    as [_ Hahead].
  - vm_compute; reflexivity.
  - discriminate.
  - vm_compute; reflexivity.
  - reflexivity.
  - vm_compute; reflexivity.
  - destruct Hahead as (E & _ & _ & _ & m & Hm & _ & Hfire);
      [reflexivity|].
    split; [exact E|]. injection Hm as <-.
    eexists. split.
    + apply Hfire; [vm_compute; reflexivity|cbn; lia].
    + vm_compute. repeat split.
Defined.

(** A record whose message is an object with a [toString] that is no
    function, found at second 1 with its time at second 5: the timeout is
    armed, and when it runs at second 5 the item is still under [KEY] and
    the time is still pending. *)
Lemma C5_counterexample :
  localStorage (before_onload {[KEY := unprintable]}) !! KEY
  = Some unprintable /\
  exists data,
    Ref.JSON_parse unprintable = Some data /\
    (get_prop data "dateTime" ≫= date_of (rt := RefRuntime))
    = Some (At 5000) /\
    restoreScheduledNotifications (rt := RefRuntime)
      (before_onload {[KEY := unprintable]})
    = (Ret tt,
       armed_by_restore data (At 5000)
         (before_onload {[KEY := unprintable]})) /\
    exists w3,
      fire (rt := RefRuntime) 1%positive
        (with_clock 5000
           (armed_by_restore data (At 5000)
              (before_onload {[KEY := unprintable]}))) = Some w3 /\
      localStorage w3 !! KEY = Some unprintable /\
      nextNotificationTime w3 = Some (At 5000).
Proof.
  split; [vm_compute; reflexivity|].
  eexists. split; [vm_compute; reflexivity|].
  split; [vm_compute; reflexivity|].
  split; [vm_compute; reflexivity|].
  eexists. split; [vm_compute; reflexivity|].
  split; vm_compute; reflexivity.
Defined.

(** C6, amended. In every state the plugin can reach: when [timer] holds
    a handle, the cancel button clears the timeout it refers to, nulls
    [timer] and the pending time, removes the item under [KEY] and returns
    normally, and nothing is armed afterwards; when [timer] is null, nothing
    is armed and no time is pending, and the button changes nothing and
    returns normally. When the application started with an item under [KEY]
    that was absent or written by [scheduleNotification], a null [timer]
    means that there is no item under [KEY]. *)
Theorem C6_cancel
    {rt : Runtime} (ls : gmap string string) (now : Z) (g a : bool)
    (es : list event) (w : world) :
  run es (boot ls now g a) = Some w ->
  (forall h, timer w = Some h ->
     exists w',
       cancel w = (Ret tt, w') /\
       timers w' = ∅ /\ timer w' = None /\
       nextNotificationTime w' = None /\
       localStorage w' = delete KEY (localStorage w) /\
       out w' = out w ++ [ShowNotice NoticeAllCancelled; Display NoneScheduled])
  /\
  (timer w = None ->
   cancel w = (Ret tt, w) /\ timers w = ∅ /\
   nextNotificationTime w = None) /\
  (RuntimeLaws rt -> clean ls ->
   timer w = None -> localStorage w !! KEY = None).
Proof.
  intros Hrun.
  pose proof (run_well_formed es _ w (boot_well_formed ls now g a) Hrun)
    as (Hslot & _ & Hidle).
  split; [|split].
  - intros h Ht. eexists. split; [by apply cancel_handle|]. cbn.
    repeat split. apply map_eq. intros h'. rewrite lookup_empty.
    destruct (decide (h = h')) as [->|Hne]; [apply lookup_delete_eq|].
    rewrite lookup_delete_ne by done.
    destruct (timers w !! h') eqn:Hh; [|done].
    specialize (Hslot h' (mk_is_Some _ _ Hh)). congruence.
  - intros Ht. split; [by apply cancel_null|]. split; [|by apply Hidle].
    apply map_eq. intros h. rewrite lookup_empty.
    destruct (timers w !! h) eqn:Hh; [|done].
    specialize (Hslot h (mk_is_Some _ _ Hh)). congruence.
  - intros laws Hclean.
    assert (Hboot : settled (boot ls now g a)) by by apply settled_onload.
    by destruct (settled_run es _ w Hboot Hrun).
Qed.

Lemma C6_witness :
  run (rt := RefRuntime) [Schedule (At 5000) "first"; Tick 4000; Fire 1%positive]
    (boot (rt := RefRuntime) ∅ 1000 false false) = Some first_fired /\
  timer first_fired = Some 1%positive /\
  is_Some (localStorage first_fired !! KEY) /\
  (exists w',
     cancel first_fired = (Ret tt, w') /\ timer w' = None /\
     localStorage w' !! KEY = None) /\
  run (rt := RefRuntime) [Tick 6000; Restart] first_pending
  = Some restarted /\
  timer restarted = None /\ localStorage restarted !! KEY = None.
Proof.
  assert (Hrun : run (rt := RefRuntime)
                   [Schedule (At 5000) "first"; Tick 4000; Fire 1%positive]
                   (boot (rt := RefRuntime) ∅ 1000 false false)
                 = Some first_fired) by (vm_compute; reflexivity).
  split; [exact Hrun|]. split; [vm_compute; reflexivity|].
  split; [vm_compute; eauto|].
  split.
  { destruct (proj1 (C6_cancel (rt := RefRuntime) ∅ 1000 false false _ _ Hrun)
                1%positive eq_refl) as (w' & E & _ & Ht & _ & Hl & _).
    exists w'. split; [exact E|]. split; [exact Ht|].
    rewrite Hl. apply lookup_delete_eq. }
  assert (Hrun' : run (rt := RefRuntime)
                    [Schedule (At 5000) "first"; Tick 6000; Restart]
                    (boot (rt := RefRuntime) ∅ 1000 false false)
                  = Some restarted) by (vm_compute; reflexivity).
  assert (Hnull : timer restarted = None) by (vm_compute; reflexivity).
  split; [vm_compute; reflexivity|]. split; [exact Hnull|].
  apply (proj2 (proj2 (C6_cancel (rt := RefRuntime) ∅ 1000 false false _ _
                         Hrun')) RefRuntime_laws); [|exact Hnull].
  left. reflexivity.
Defined.

(** After a start that finds text under [KEY] that is not JSON, nothing
    is pending, the button does nothing, and the text stays. *)
Lemma C6_counterexample :
  run (rt := RefRuntime) [] (boot (rt := RefRuntime) corrupt 1000 false false)
  = Some (boot (rt := RefRuntime) corrupt 1000 false false) /\
  timer (boot (rt := RefRuntime) corrupt 1000 false false) = None /\
  timers (boot (rt := RefRuntime) corrupt 1000 false false) = ∅ /\
  nextNotificationTime (boot (rt := RefRuntime) corrupt 1000 false false)
  = None /\
  cancel (boot (rt := RefRuntime) corrupt 1000 false false)
  = (Ret tt, boot (rt := RefRuntime) corrupt 1000 false false) /\
  localStorage (boot (rt := RefRuntime) corrupt 1000 false false) !! KEY
  = Some "not json"%string.
Proof. repeat split; vm_compute; reflexivity. Qed.

(** C7, amended. When the host runs a timeout's callback, the timeout is
    no longer armed, and [timer], the clock and the handle supply are
    unchanged. The callback armed by [scheduleNotification] shows the
    message and clears the pending time, and leaves [localStorage] as it is,
    so the record stays behind. The callback armed by
    [restoreScheduledNotifications] shows the message of its record, clears
    the pending time and removes the item under [KEY] when that message
    converts to text, as the message of a record that
    [scheduleNotification] wrote does; when it does not convert, the
    callback throws, and the pending time and the item stay. *)
Theorem C7_fire_completion
    {rt : Runtime} (w : world) (h : positive) (t : timeout) :
  timers w !! h = Some t -> due t <= clock w ->
  exists w',
    fire h w = Some w' /\
    timers w' = delete h (timers w) /\
    timer w' = timer w /\ clock w' = clock w /\
    nextHandle w' = nextHandle w /\
    match handler t with
    | ScheduledCallback msg =>
        w' = with_next None
               (with_out (out w ++ shown msg w)
                  (with_timers (delete h (timers w)) w)) /\
        nextNotificationTime w' = None /\
        localStorage w' = localStorage w
    | RestoredCallback data =>
        match get_prop data "message" ≫= to_string with
        | Some text =>
            w' = erased (with_next None
                   (with_out (out w ++ shown text w)
                      (with_timers (delete h (timers w)) w))) /\
            nextNotificationTime w' = None /\
            localStorage w' = delete KEY (localStorage w)
        | None =>
            w' = with_timers (delete h (timers w)) w /\
            nextNotificationTime w' = nextNotificationTime w /\
            localStorage w' = localStorage w
        end /\
        forall dateTime message scheduledAt,
          data = persisted dateTime message scheduledAt ->
          get_prop data "message" ≫= to_string = Some message
    end.
Proof.
  intros Hh Hdue. rewrite (fire_due h t w Hh Hdue).
  eexists. split; [reflexivity|].
  destruct (handler t) as [msg|data].
  - unfold exec. rewrite run_scheduled_callback. done.
  - rewrite exec_restored_callback.
    destruct (get_prop data "message" ≫= to_string) as [text|] eqn:E; cbn;
      (repeat split; try done);
      intros dateTime message scheduledAt ->; by rewrite <- E.
Qed.

(** The first reminder fires at second 5, once from the timeout that
    [scheduleNotification] armed and once, in another process, from the one
    armed from the record: the first leaves the record, the second removes
    it. *)
Lemma C7_witness :
  (timers first_due !! 1%positive
   = Some (MkTimeout (ScheduledCallback "first") (Num 4000) 1000) /\
   exists w',
     fire (rt := RefRuntime) 1%positive first_due = Some w' /\
     nextNotificationTime w' = None /\
     localStorage w' = localStorage first_due /\
     is_Some (localStorage w' !! KEY)) /\
  (timers restored_due !! 1%positive
   = Some (MkTimeout
             (RestoredCallback
                (persisted "1970-01-01T00:00:05.000Z" "first"
                           "1970-01-01T00:00:01.000Z"))
             (Num 2000) 3000) /\
   exists w',
     fire (rt := RefRuntime) 1%positive restored_due = Some w' /\
     nextNotificationTime w' = None /\
     localStorage w' = delete KEY (localStorage restored_due) /\
     localStorage w' !! KEY = None).
Proof.
  assert (Hh : timers first_due !! 1%positive
               = Some (MkTimeout (ScheduledCallback "first") (Num 4000) 1000))
    by reflexivity.
  assert (Hr : timers restored_due !! 1%positive
               = Some (MkTimeout
                         (RestoredCallback
                            (persisted "1970-01-01T00:00:05.000Z" "first"
                                       "1970-01-01T00:00:01.000Z"))
                         (Num 2000) 3000))
    by (vm_compute; reflexivity).
  split.
  - split; [exact Hh|].
    destruct (C7_fire_completion (rt := RefRuntime) first_due 1%positive _ Hh)
      as (w' & E & _ & _ & _ & _ & _ & Hn & Hl).
    + intros E. discriminate E.
    + exists w'. split; [exact E|]. split; [exact Hn|]. split; [exact Hl|].
      rewrite Hl. vm_compute. eauto.
  - split; [exact Hr|].
    destruct (C7_fire_completion (rt := RefRuntime) restored_due 1%positive
                _ Hr)
      as (w' & E & _ & _ & _ & _ & (_ & Hn & Hl) & _).
    + intros E. discriminate E.
    + exists w'. split; [exact E|]. split; [exact Hn|]. split; [exact Hl|].
      rewrite Hl. apply lookup_delete_eq.
Defined.

(** The timeout armed from a record whose message does not convert to text
    is due and runs: the time is still pending afterwards, and the item is
    still under [KEY], although the timeout was armed from it. *)
Lemma C7_counterexample :
  exists data,
    timers unprintable_due !! 1%positive
    = Some (MkTimeout (RestoredCallback data) (Num 4000) 1000) /\
    due (MkTimeout (RestoredCallback data) (Num 4000) 1000)
    <= clock unprintable_due /\
    exists w',
      fire (rt := RefRuntime) 1%positive unprintable_due = Some w' /\
      nextNotificationTime w' = Some (At 5000) /\
      localStorage w' !! KEY = Some unprintable /\
      timers w' = ∅ /\ out w' = out unprintable_due.
Proof.
  eexists. split; [vm_compute; reflexivity|].
  split; [intros E; discriminate E|].
  eexists. split; [vm_compute; reflexivity|].
  repeat split; vm_compute; reflexivity.
Defined.

(** C8, amended. For every non-empty string under [KEY] that [JSON.parse]
    rejects, [restoreScheduledNotifications] catches the SyntaxError, logs
    it and changes nothing else: the pending time and [timer] stay null,
    nothing is armed, the item stays, and the call returns normally. An
    empty string is falsy: it is not parsed and nothing is logged. *)
Theorem C8_parse_failure_is_caught
    {rt : Runtime} (w : world) (s : string) :
  localStorage w !! KEY = Some s -> JSON_parse s = None ->
  (s <> ""%string ->
   restoreScheduledNotifications w
   = (Ret tt, with_out (out w ++ [ConsoleError SyntaxError]) w)) /\
  (s = ""%string -> restoreScheduledNotifications w = (Ret tt, w)).
Proof.
  intros Hs Hp. split.
  - intros Hne. by apply (restore_unparseable w s).
  - intros ->. by apply restore_empty.
Qed.

Lemma C8_witness :
  restoreScheduledNotifications (rt := RefRuntime) (before_onload corrupt)
  = (Ret tt,
     with_out [ConsoleError SyntaxError] (before_onload corrupt)).
Proof.
  refine (proj1 (C8_parse_failure_is_caught (rt := RefRuntime)
                   (before_onload corrupt) "not json" _ _) _).
  - reflexivity.
  - reflexivity.
  - discriminate.
Defined.

(** The empty string does not parse either, and nothing is logged. *)
Lemma C8_counterexample :
  localStorage (before_onload {[KEY := ""%string]}) !! KEY = Some ""%string /\
  JSON_parse (Runtime := RefRuntime) "" = None /\
  restoreScheduledNotifications (rt := RefRuntime)
    (before_onload {[KEY := ""%string]})
  = (Ret tt, before_onload {[KEY := ""%string]}) /\
  out (before_onload {[KEY := ""%string]}) = [].
Proof. repeat split. Qed.




(** C10, amended. For every non-empty string under [KEY] that parses to a
    value other than [null] and whose [dateTime] makes [new Date] an Invalid
    Date, such as a string that is not a date or a [dateTime] that is
    missing, [dateTime > now] is false and
    [restoreScheduledNotifications] removes the item through the stale
    branch: nothing is armed, the pending time stays null and the call
    returns normally. *)
Theorem C10_invalid_timestamp_is_stale
    {rt : Runtime} (w : world) (s : string) (data v : value) :
  localStorage w !! KEY = Some s -> s <> ""%string ->
  JSON_parse s = Some data ->
  get_prop data "dateTime" = Some v -> date_of v = Some InvalidDate ->
  num_gtb (getTime InvalidDate) (Num (clock w)) = false /\
  restoreScheduledNotifications w = (Ret tt, erased w) /\
  timers (erased w) = timers w /\ timer (erased w) = timer w /\
  nextNotificationTime (erased w) = nextNotificationTime w /\
  localStorage (erased w) !! KEY = None.
Proof.
  intros Hs Hne Hp Hg Hd. split; [done|].
  rewrite (restore_parsed w s data Hs Hne Hp), Hg. cbn. rewrite Hd. cbn.
  repeat split. apply lookup_delete_eq.
Qed.

Lemma C10_witness :
  restoreScheduledNotifications (rt := RefRuntime)
    (before_onload {[KEY := undated]})
  = (Ret tt, erased (before_onload {[KEY := undated]})).
Proof.
  refine (proj1 (proj2 (C10_invalid_timestamp_is_stale (rt := RefRuntime)
                          (before_onload {[KEY := undated]}) undated
                          (VObj [("dateTime", VStr "soon")]) (VStr "soon")
                          _ _ _ _ _))).
  - reflexivity.
  - discriminate.
  - reflexivity.
  - reflexivity.
  - reflexivity.
Defined.

(** A [dateTime] that is a number is not a date string, yet it makes a
    valid date: year 2100 here, and the record is re-armed. *)
Lemma C10_counterexample :
  JSON_parse (Runtime := RefRuntime) numbered
  = Some (VObj [("dateTime", VNum (S754_finite false 8401806950400000 (-11)))]) /\
  date_of (rt := RefRuntime) (VNum (S754_finite false 8401806950400000 (-11)))
  = Some (At 4102444800000) /\
  exists w',
    restoreScheduledNotifications (rt := RefRuntime)
      (before_onload {[KEY := numbered]}) = (Ret tt, w') /\
    timer w' = Some 1%positive /\
    is_Some (timers w' !! 1%positive) /\
    localStorage w' !! KEY = Some numbered.
Proof.
  split; [reflexivity|]. split; [reflexivity|].
  eexists. split; [reflexivity|]. split; [reflexivity|].
  split; [|reflexivity]. vm_compute. eauto.
Qed.

(** * Further properties *)

(** ** The armed timeout is the pending one *)

Section Aimed.

Context {rt : Runtime}.

Lemma aimed_schedule (d : Date) (msg : string) (w : world) :
  well_formed w -> aimed w -> aimed (exec (scheduleNotification d msg) w).
Proof.
  intros Hw Ha.
  destruct (schedule_shape d msg w) as (oc & w' & E & [->|(ls & o & -> & _)]);
    unfold exec; rewrite E; cbn [snd]; [exact Ha|].
  intros h t. cbn. rewrite (slot_cleared w Hw). intros Hh. map_facts.
  eexists. split; [reflexivity|]. apply target_armed.
Qed.

Lemma aimed_restore (w : world) :
  timers w = ∅ -> aimed (exec restoreScheduledNotifications w).
Proof.
  intros He. unfold exec.
  destruct (restore_shape w)
    as (w' & -> & [[o ->]|[->|(data & d & T & _ & _ & ->)]]); cbn [snd];
    intros h t; cbn; rewrite He; intros Hh; map_facts.
  eexists. split; [reflexivity|]. apply target_armed.
Qed.

Lemma aimed_onload (w : world) : timers w = ∅ -> aimed (exec onload w).
Proof.
  intros He. destruct (onload_exec w) as [o ->]. by apply aimed_restore.
Qed.

Lemma aimed_step (e : event) (w w' : world) :
  well_formed w -> aimed w -> step e w = Some w' -> aimed w'.
Proof.
  intros Hw Ha. destruct e; cbn [step].
  - destruct (wf_Date dateTime); [|done]. intros [= <-]. by apply aimed_schedule.
  - destruct (wf_Date _); [|done]. intros [= <-]. by apply aimed_schedule.
  - destruct (0 <=? elapsed); [|done]. intros [= <-].
    destruct (quick_5min_exec elapsed w) as [o ->].
    by apply (aimed_schedule _ _ (with_clock (clock w + elapsed) w)).
  - destruct (0 <=? elapsed); [|done]. intros [= <-].
    destruct (tomorrow_exec elapsed w) as [o ->].
    by apply (aimed_schedule _ _ (with_clock (clock w + elapsed) w)).
  - intros [= <-]. unfold exec. destruct (timer w) as [h|] eqn:Ht.
    + rewrite (cancel_handle w h Ht). intros h' t. cbn.
      pose proof (slot_cleared w Hw) as E. rewrite Ht in E. rewrite E.
      intros Hh. map_facts.
    + by rewrite (cancel_null w Ht).
  - intros Hf.
    destruct (fire_shape h w w' Hf) as (t & nx & ls & o & Ht & _ & -> & _).
    intros h' t'. cbn. rewrite (slot_deleted w h Hw (mk_is_Some _ _ Ht)).
    intros Hh. map_facts.
  - destruct (0 <=? d); [|done]. by intros [= <-].
  - intros [= <-]. apply aimed_onload. unfold exec.
    by rewrite (onunload_reached w Hw).
  - intros [= <-]. by apply aimed_onload.
Qed.

Lemma run_aimed (es : list event) (w w' : world) :
  well_formed w -> aimed w -> run es w = Some w' -> aimed w'.
Proof.
  revert w. induction es as [|e es IH]; intros w Hw Ha; cbn.
  - by intros [= <-].
  - destruct (step e w) as [w1|] eqn:Hs; [|done].
    apply IH; [|by apply (aimed_step e w)].
    by apply (step_advances e w w1 Hs).
Qed.

Lemma boot_aimed ls now g a : aimed (boot ls now g a).
Proof. by apply aimed_onload. Qed.

End Aimed.

(** ** The other keys of [localStorage] *)

Section OtherKeys.

Context {rt : Runtime}.

Lemma schedule_other_keys (d : Date) (msg : string) (w : world) (k : string) :
  k <> KEY ->
  localStorage (exec (scheduleNotification d msg) w) !! k = localStorage w !! k.
Proof.
  intros Hk.
  destruct (schedule_shape d msg w) as (oc & w' & E & [->|(ls & o & -> & Hls)]);
    unfold exec; rewrite E; cbn [snd]; [done|]. cbn.
  destruct (getTime d) as [|t]; [by subst|].
  destruct Hls as [_ ->]. by rewrite lookup_insert_ne.
Qed.

Lemma restore_other_keys (w : world) (k : string) :
  k <> KEY ->
  localStorage (exec restoreScheduledNotifications w) !! k
  = localStorage w !! k.
Proof.
  intros Hk. unfold exec.
  destruct (restore_shape w)
    as (w' & -> & [[o ->]|[->|(data & d & T & _ & _ & ->)]]); cbn; [done| |done].
  by rewrite lookup_delete_ne.
Qed.

Lemma onload_other_keys (w : world) (k : string) :
  k <> KEY -> localStorage (exec onload w) !! k = localStorage w !! k.
Proof.
  intros Hk. destruct (onload_exec w) as [o ->]. by apply restore_other_keys.
Qed.

Lemma onunload_storage (w : world) :
  localStorage (exec onunload w) = localStorage w.
Proof.
  unfold onunload, exec. unfold_M.
  by destruct w as [[h|] nx c ts nh ls g a o].
Qed.

Lemma with_out_storage (o : list output) (w : world) :
  localStorage (with_out o w) = localStorage w.
Proof. done. Qed.

Lemma step_other_keys (e : event) (w w' : world) (k : string) :
  step e w = Some w' -> k <> KEY -> localStorage w' !! k = localStorage w !! k.
Proof.
  intros Hs Hk. destruct e; cbn [step] in Hs.
  - destruct (wf_Date dateTime); [|done]. injection Hs as <-.
    by apply schedule_other_keys.
  - destruct (wf_Date _); [|done]. injection Hs as <-.
    by apply schedule_other_keys.
  - destruct (0 <=? elapsed); [|done]. injection Hs as <-.
    destruct (quick_5min_exec elapsed w) as [o ->].
    by rewrite with_out_storage, schedule_other_keys.
  - destruct (0 <=? elapsed); [|done]. injection Hs as <-.
    destruct (tomorrow_exec elapsed w) as [o ->].
    by rewrite with_out_storage, schedule_other_keys.
  - injection Hs as <-. unfold exec. destruct (timer w) as [h|] eqn:Ht.
    + rewrite (cancel_handle w h Ht). cbn. by rewrite lookup_delete_ne.
    + by rewrite (cancel_null w Ht).
  - destruct (fire_shape h w w' Hs) as (t & nx & ls & o & _ & _ & -> & _ & Hls).
    cbn. destruct Hls as [->| ->]; [done|]. by rewrite lookup_delete_ne.
  - destruct (0 <=? d); [|done]. by injection Hs as <-.
  - injection Hs as <-. rewrite onload_other_keys by done. cbn.
    by rewrite onunload_storage.
  - injection Hs as <-. by rewrite onload_other_keys.
Qed.

End OtherKeys.

(** ** The quick commands *)

Section Commands.

Context {rt : Runtime}.

Lemma Date_of_number_valid (t : Z) :
  valid_time t -> Date_of_number (Num t) = At t.
Proof.
  unfold valid_time, Date_of_number, At. intros H.
  destruct (Z.leb_spec (- maxTime) t); [|lia].
  destruct (Z.leb_spec t maxTime); [|lia]. reflexivity.
Qed.

Lemma wf_Date_At (t : Z) : valid_time t -> wf_Date (At t) = true.
Proof.
  unfold valid_time, wf_Date; cbn. intros H.
  destruct (Z.leb_spec (- maxTime) t); [|lia].
  destruct (Z.leb_spec t maxTime); [|lia]. reflexivity.
Qed.



End Commands.

(** ** Loading the plugin again *)

Section Restarts.

Context {rt : Runtime}.

Lemma onload_absent (w : world) :
  localStorage w !! KEY = None ->
  exec onload w = with_out (out w ++ [ConsoleLog LogLoaded]) w.
Proof.
  intros H. by rewrite (onload_after_restore w w (restore_absent w H)).
Qed.

(** The plugin is loaded again, by a reload or in a new process, in a state
    that a run has reached. *)
Lemma loaded_again (again : event) (w : world) :
  well_formed w -> again = Reload \/ again = Restart ->
  exists o nh,
    step again w =
      Some (exec onload
              (MkWorld None None (clock w) ∅ nh (localStorage w)
                 (notificationGranted w) (activeMarkdownView w) o)) /\
    o = out w ++ match again with
                 | Reload => [ConsoleLog LogUnloaded]
                 | _ => []
                 end.
Proof.
  intros Hw [-> | ->]; cbn [step].
  - unfold exec at 2. rewrite (onunload_reached w Hw). cbn.
    by exists (out w ++ [ConsoleLog LogUnloaded]), (nextHandle w).
  - exists (out w ++ []), 1%positive. split; [|done].
    rewrite app_nil_r. by destruct w.
Qed.

(** An accepted request, and time passing after it. *)
Lemma scheduled_then_tick (w : world) (T d : Z) (msg : string) :
  well_formed w -> valid_time T -> clock w < T -> 0 <= d ->
  exists w2,
    run [Schedule (At T) msg; Tick d] w = Some w2 /\
    well_formed w2 /\
    clock w2 = clock w + d /\
    localStorage w2 =
      <[KEY := JSON_stringify
                 (persisted (toISOString_text T) msg
                            (toISOString_text (clock w)))]> (localStorage w) /\
    out w2 = out w ++ [ShowNotice (NoticeSetFor (At T))] /\
    notificationGranted w2 = notificationGranted w /\
    activeMarkdownView w2 = activeMarkdownView w.
Proof.
  intros Hw HT Hlt Hd.
  assert (Hs : step (Schedule (At T) msg) w
               = Some (exec (scheduleNotification (At T) msg) w)).
  { cbn [step]. by rewrite (wf_Date_At T HT). }
  pose proof (proj1 (proj2 (step_advances _ _ _ Hs)) Hw) as Hw1.
  cbn [run]. rewrite Hs. cbn [step].
  destruct (Z.leb_spec 0 d); [|lia].
  eexists. split; [reflexivity|].
  unfold exec in *. rewrite (scheduleNotification_future w T msg Hlt) in *.
  cbn [snd] in *. split; [exact Hw1|]. done.
Qed.

(** The host runs the timeout that was restored from a record of
    [scheduleNotification]. *)
Lemma fire_own_record (w : world) (h : positive) (a msg b : string)
    (dl : number) (c : Z) :
  timers w !! h
  = Some (MkTimeout (RestoredCallback (persisted a msg b)) dl c) ->
  due (MkTimeout (RestoredCallback (persisted a msg b)) dl c) <= clock w ->
  fire h w =
    Some (erased (with_next None
            (with_out (out w ++ shown msg w)
               (with_timers (delete h (timers w)) w)))).
Proof.
  intros Hh Hdue. unfold fire. rewrite Hh.
  destruct (Z.leb_spec
              (due (MkTimeout (RestoredCallback (persisted a msg b)) dl c))
              (clock w)); [|lia].
  unfold exec. cbn [handler].
  by rewrite (run_restored_callback _ _ (VStr msg) msg).
Qed.

Context {laws : RuntimeLaws rt}.

Lemma onload_own_record_ahead (w : world) (T : Z) (msg c : string) :
  valid_time T ->
  localStorage w !! KEY =
    Some (JSON_stringify (persisted (toISOString_text T) msg c)) ->
  clock w < T ->
  exec onload w =
    with_out (out w ++ [ConsoleLog (LogRestored (At T)); ConsoleLog LogLoaded])
      (armed_by_restore (persisted (toISOString_text T) msg c) (At T) w).
Proof.
  intros HT Hs Hc.
  pose proof (restore_own_record w T msg c HT Hs) as E.
  destruct (Z.ltb_spec (clock w) T); [|lia].
  rewrite (onload_after_restore _ _ E). cbn. by rewrite <- app_assoc.
Qed.

Lemma onload_own_record_behind (w : world) (T : Z) (msg c : string) :
  valid_time T ->
  localStorage w !! KEY =
    Some (JSON_stringify (persisted (toISOString_text T) msg c)) ->
  T <= clock w ->
  exec onload w = with_out (out w ++ [ConsoleLog LogLoaded]) (erased w).
Proof.
  intros HT Hs Hc.
  pose proof (restore_own_record w T msg c HT Hs) as E.
  destruct (Z.ltb_spec (clock w) T); [lia|].
  by rewrite (onload_after_restore _ _ E).
Qed.

End Restarts.

(** ** The message of a record *)

Section Messages.

Context {rt : Runtime}.


End Messages.

(** ** The runtime in local time *)

Lemma toISOString_text_local (tz t : Z) :
  toISOString_text (Runtime := LocalRuntime tz) t = Ref.toISOString_text t.
Proof. reflexivity. Qed.

Module LocalFacts.

Import Ref RefFacts LocalTime ScheduleNotificationModal.

Lemma digits_of_S (f : nat) (n : Z) (acc : string) :
  digits_of (S f) n acc =
    if n <? 10 then String (digit (n mod 10)) acc
    else digits_of f (n / 10) (String (digit (n mod 10)) acc).
Proof. reflexivity. Qed.

(** The hour and the minute, padded by [padStart]. *)
Lemma decimal_pad2 (n : Z) :
  0 <= n <= 99 -> padStart 2 "0" (decimal n) = pad2 n.
Proof.
  intros H. unfold decimal. destruct (Z.ltb_spec n 0); [lia|].
  rewrite digits_of_S.
  destruct (Z.ltb_spec n 10).
  - unfold padStart, pad2. cbn [String.length Nat.sub fill].
    change (String "0" EmptyString +:+ ?x) with (String "0" x).
    replace (n / 10) with 0 by (Z.div_mod_to_equations; lia). reflexivity.
  - rewrite digits_of_S.
    destruct (Z.ltb_spec (n / 10) 10); [|Z.div_mod_to_equations; lia].
    unfold padStart, pad2. cbn [String.length Nat.sub fill].
    replace (n / 10 mod 10) with (n / 10) by (Z.div_mod_to_equations; lia).
    reflexivity.
Qed.

Lemma before_digit (k : Z) (r : string) :
  0 <= k <= 9 ->
  before "T" (String (digit k) r) = String (digit k) (before "T" r).
Proof.
  intros H. cbn [before]. rewrite code_digit by done.
  change (code "T") with 84.
  by destruct (Z.eqb_spec (48 + k) 84); [lia|].
Qed.

Lemma before_pad2 (n : Z) (r : string) :
  0 <= n <= 99 -> before "T" (pad2 n +:+ r) = pad2 n +:+ before "T" r.
Proof.
  intros H.
  change (pad2 n +:+ r)
    with (String (digit (n / 10)) (String (digit (n mod 10)) r)).
  rewrite !before_digit by (Z.div_mod_to_equations; lia). reflexivity.
Qed.

Lemma before_pad4 (n : Z) (r : string) :
  0 <= n <= 9999 -> before "T" (pad4 n +:+ r) = pad4 n +:+ before "T" r.
Proof.
  intros H.
  change (pad4 n +:+ r)
    with (String (digit (n / 1000))
            (String (digit (n mod 1000 / 100))
               (pad2 (n mod 1000 mod 100) +:+ r))).
  rewrite !before_digit, before_pad2 by (Z.div_mod_to_equations; lia).
  reflexivity.
Qed.

Lemma before_pad6 (n : Z) (r : string) :
  0 <= n <= 999999 -> before "T" (pad6 n +:+ r) = pad6 n +:+ before "T" r.
Proof.
  intros H.
  change (pad6 n +:+ r)
    with (String (digit (n / 100000))
            (String (digit (n / 10000 mod 10)) (pad4 (n mod 10000) +:+ r))).
  rewrite !before_digit, before_pad4 by (Z.div_mod_to_equations; lia).
  reflexivity.
Qed.

Lemma before_year_text (y : Z) (r : string) :
  -999999 <= y <= 999999 ->
  before "T" (year_text y +:+ r) = year_text y +:+ before "T" r.
Proof.
  intros H. unfold year_text.
  destruct ((0 <=? y) && (y <=? 9999)) eqn:E.
  - apply andb_true_iff in E as [?%Z.leb_le ?%Z.leb_le]. by apply before_pad4.
  - destruct (Z.ltb_spec y 0).
    + change (String "-" (pad6 (- y)) +:+ r)
        with (String "-" (pad6 (- y) +:+ r)).
      cbn [before]. change (code "-" =? code "T") with false. cbv iota.
      by rewrite before_pad6 by lia.
    + change (String "+" (pad6 y) +:+ r) with (String "+" (pad6 y +:+ r)).
      cbn [before]. change (code "+" =? code "T") with false. cbv iota.
      by rewrite before_pad6 by lia.
Qed.

(** The date that the constructor cuts out of [toISOString]. *)
Lemma before_iso_text (y m d h mi sec ms : Z) :
  -999999 <= y <= 999999 -> 0 <= m <= 99 -> 0 <= d <= 99 ->
  before "T" (iso_text y m d h mi sec ms)
  = year_text y +:+ "-" +:+ pad2 m +:+ "-" +:+ pad2 d.
Proof.
  intros Hy Hm Hd. unfold iso_text.
  rewrite before_year_text by done.
  change (before "T" ("-" +:+ ?x)) with (String "-" (before "T" x)).
  rewrite before_pad2 by done.
  change (before "T" ("-" +:+ ?x)) with (String "-" (before "T" x)).
  rewrite before_pad2 by done.
  reflexivity.
Qed.

Lemma date_part_text (y m d : Z) (rest : string) :
  -999999 <= y <= 999999 -> 0 <= m <= 99 -> 0 <= d <= 99 ->
  date_part (year_text y +:+ "-" +:+ pad2 m +:+ "-" +:+ pad2 d +:+ rest)
  = Some (y, m, d, rest).
Proof.
  intros Hy Hm Hd. unfold date_part.
  rewrite year_year_text by done. cbn [mbind option_bind].
  rewrite expect_head, take_pad2 by done. cbn [mbind option_bind].
  rewrite expect_head, take_pad2 by done. reflexivity.
Qed.

Lemma time_part_text (h mi : Z) :
  0 <= h <= 99 -> 0 <= mi <= 99 ->
  time_part (pad2 h +:+ ":" +:+ pad2 mi) = Some (h, mi, 0, 0, EmptyString).
Proof.
  intros Hh Hmi. unfold time_part.
  rewrite take_pad2 by done. cbn [mbind option_bind].
  rewrite expect_head. cbn [mbind option_bind].
  change (pad2 mi) with (pad2 mi +:+ EmptyString).
  rewrite take_pad2 by done. reflexivity.
Qed.

Lemma time_part_full (h mi sec ms : Z) (rest : string) :
  0 <= h <= 99 -> 0 <= mi <= 99 -> 0 <= sec <= 99 -> 0 <= ms <= 999 ->
  time_part (pad2 h +:+ ":" +:+ pad2 mi +:+ ":" +:+ pad2 sec +:+ "." +:+
             pad3 ms +:+ rest)
  = Some (h, mi, sec, ms, rest).
Proof.
  intros Hh Hmi Hsec Hms. unfold time_part.
  rewrite take_pad2 by done. cbn [mbind option_bind].
  rewrite expect_head. cbn [mbind option_bind].
  rewrite take_pad2 by done. cbn [mbind option_bind].
  rewrite expect_head, take_pad2 by done. cbn [mbind option_bind].
  rewrite expect_head, take_pad3 by done. reflexivity.
Qed.

Ltac decide_fields :=
  repeat match goal with
         | |- context [?a <=? ?b] =>
             lazymatch b with
             | maxTime => fail
             | _ => lazymatch a with
                    | - maxTime => fail
                    | _ => rewrite (proj2 (Z.leb_le a b)) by lia
                    end
             end
         end.

(** [toISOString] writes the full format, which is read as UTC in every
    zone. *)
Lemma local_parse_toISOString (tz t : Z) :
  valid_time t -> LocalTime.Date_parse tz (toISOString_text t) = Num t.
Proof.
  unfold valid_time, maxTime. intros Ht. unfold toISOString_text.
  set (day := t / msPerDay). set (ms := t mod msPerDay).
  assert (Hday : t = msPerDay * day + ms /\ 0 <= ms < msPerDay).
  { subst day ms. unfold msPerDay. Z.div_mod_to_equations; lia. }
  destruct (civil_of_days_spec day) as (y & m & d & -> & Hback & Hm & Hd & Hy).
  destruct (time_of_day ms (proj2 Hday)) as (Hh & Hmi & Hsec & Hms & Hsum).
  assert (Hdim : days_in_month y m <= 31).
  { unfold days_in_month. repeat case_match; lia. }
  assert (Hera : -700 <= (day + 719468) / 146097 <= 700).
  { unfold msPerDay in Hday. Z.div_mod_to_equations; lia. }
  unfold LocalTime.Date_parse, iso_text.
  rewrite (date_part_text y m d) by lia.
  change (String "T" EmptyString +:+ ?x) with (String "T" x).
  change (code "T" =? 84) with true. cbv iota.
  rewrite time_part_full by lia.
  cbn [zone_part]. change (code "Z" =? 90) with true. cbv iota.
  unfold time_value. rewrite Hback.
  replace (day * msPerDay + ms / 3600000 * 3600000
           + ms / 60000 mod 60 * 60000 + ms / 1000 mod 60 * 1000
           + ms mod 1000 - 0) with t by lia.
  unfold maxTime.
  repeat match goal with
         | |- context [?a <=? ?b] => rewrite (proj2 (Z.leb_le a b)) by lia
         end.
  reflexivity.
Qed.

(** What the constructor fills in, read back by [schedule]: the UTC date
    with the local hour and minute, as a local time. *)
Lemma constructor_defaults (tz : Z) (w0 : world) :
  valid_time (clock w0) ->
  exists r,
    constructor (rt := LocalRuntime tz) tz w0 = (Ret r, w0) /\
    message r = "Напоминание из Obsidian!"%string /\
    MkDate (LocalTime.Date_parse tz (date r +:+ "T" +:+ time r))
    = Date_of_number
        (Num (clock w0
              + (clock w0 / 86400000 - (clock w0 + tz) / 86400000) * 86400000
              - (clock w0 + tz) mod 60000)).
Proof.
  unfold valid_time, maxTime. intros Ht.
  unfold constructor, toISOString. unfold_M. cbn [getTime At].
  eexists. split; [reflexivity|]. split; [reflexivity|].
  cbn [date time getHours getMinutes getTime At String_of].
  set (t := clock w0) in *.
  rewrite toISOString_text_local.
  unfold Ref.toISOString_text. cbv zeta. change msPerDay with 86400000.
  destruct (civil_of_days_spec (t / 86400000))
    as (y & m & d & -> & Hback & Hm & Hd & Hy).
  assert (Hdim : days_in_month y m <= 31).
  { unfold days_in_month. repeat case_match; lia. }
  assert (Hera : -700 <= (t / 86400000 + 719468) / 146097 <= 700).
  { Z.div_mod_to_equations; lia. }
  rewrite before_iso_text by lia.
  set (H := (t + tz) / 3600000 mod 24). set (Mi := (t + tz) / 60000 mod 60).
  assert (HH : 0 <= H <= 23) by (subst H; Z.div_mod_to_equations; lia).
  assert (HMi : 0 <= Mi <= 59) by (subst Mi; Z.div_mod_to_equations; lia).
  rewrite !decimal_pad2 by lia.
  unfold LocalTime.Date_parse.
  rewrite !append_assoc.
  rewrite (date_part_text y m d) by lia.
  change (String "T" EmptyString +:+ ?x) with (String "T" x).
  change (code "T" =? 84) with true. cbv iota.
  rewrite time_part_text by lia. cbn [zone_part].
  unfold time_value. rewrite Hback. change msPerDay with 86400000.
  decide_fields.
  cbn [andb orb]. unfold Date_of_number.
  replace (t / 86400000 * 86400000 + H * 3600000 + Mi * 60000 + 0 * 1000 + 0
           - tz)
    with (t + (t / 86400000 - (t + tz) / 86400000) * 86400000
          - (t + tz) mod 60000)
    by (subst H Mi; Z.div_mod_to_equations; lia).
  by destruct (_ && _).
Qed.

(** A date and a time as the user types them. *)
Lemma typed_text (tz y m d h mi : Z) :
  0 <= y <= 9999 -> 1 <= m <= 12 -> 1 <= d <= days_in_month y m ->
  0 <= h <= 23 -> 0 <= mi <= 59 ->
  MkDate (LocalTime.Date_parse tz
            ((pad4 y +:+ "-" +:+ pad2 m +:+ "-" +:+ pad2 d) +:+ "T" +:+
             (pad2 h +:+ ":" +:+ pad2 mi)))
  = Date_of_number
      (Num (days_of_civil y m d * 86400000 + h * 3600000 + mi * 60000 - tz)).
Proof.
  intros Hy Hm Hd Hh Hmi.
  assert (Hdim : days_in_month y m <= 31).
  { unfold days_in_month. repeat case_match; lia. }
  assert (Hyt : year_text y = pad4 y).
  { unfold year_text. destruct (Z.leb_spec 0 y); [|lia].
    by destruct (Z.leb_spec y 9999); [|lia]. }
  unfold LocalTime.Date_parse. rewrite <- Hyt, !append_assoc.
  rewrite (date_part_text y m d) by lia.
  change (String "T" EmptyString +:+ ?x) with (String "T" x).
  change (code "T" =? 84) with true. cbv iota.
  rewrite time_part_text by lia. cbn [zone_part].
  unfold time_value. change msPerDay with 86400000.
  decide_fields.
  cbn [andb orb]. unfold Date_of_number.
  replace (days_of_civil y m d * 86400000 + h * 3600000 + mi * 60000
           + 0 * 1000 + 0 - tz)
    with (days_of_civil y m d * 86400000 + h * 3600000 + mi * 60000 - tz)
    by lia.
  by destruct (_ && _).
Qed.

End LocalFacts.

Example Date_parse_local_forms :
  LocalTime.Date_parse 10800000 "2024-05-01T13:45" = Num 1714560300000 /\
  LocalTime.Date_parse 10800000 "2024-05-01T13:45Z" = Num 1714571100000 /\
  LocalTime.Date_parse 10800000 "2024-05-01T13:45:10.250+03:00"
  = Num 1714560310250 /\
  LocalTime.Date_parse 10800000 "2024-05-01" = Num 1714521600000 /\
  LocalTime.Date_parse 10800000 "2024-05-01T24:00" = Num 1714597200000 /\
  LocalTime.Date_parse 10800000 "2024-05-01T24:01" = NaN /\
  LocalTime.Date_parse 10800000 "T12:00" = NaN /\
  LocalTime.Date_parse 10800000 "2024-05-01T12:00:00.000Z"
  = Ref.Date_parse "2024-05-01T12:00:00.000Z".
Proof. repeat split. Qed.

Lemma LocalRuntime_laws (tz : Z) : RuntimeLaws (LocalRuntime tz).
Proof.
  split.
  - apply LocalFacts.local_parse_toISOString.
  - apply RefFacts.JSON_parse_stringify.
  - reflexivity.
Qed.

(** ** The properties *)





(** X3. In every state the plugin can reach, a timeout that is armed is
    the one [timer] refers to and is aimed at the time that
    [getNextNotificationInfo] reports; when it reports that nothing is
    scheduled, no timeout is armed. *)
Theorem X3_armed_timeout_is_the_reported_one
    {rt : Runtime} (ls : gmap string string) (now : Z) (g a : bool)
    (es : list event) (w : world) :
  run es (boot ls now g a) = Some w ->
  (forall h t,
     timers w !! h = Some t ->
     timer w = Some h /\
     exists d,
       getNextNotificationInfo w = (Ret (NextNotification d), w) /\
       target t = getTime d) /\
  (getNextNotificationInfo w = (Ret NoneScheduled, w) -> timers w = ∅).
Proof.
  intros Hrun.
  pose proof (run_well_formed es _ w (boot_well_formed ls now g a) Hrun) as Hw.
  pose proof (run_aimed es _ w (boot_well_formed ls now g a)
                (boot_aimed ls now g a) Hrun) as Ha.
  split.
  - intros h t Hh. split; [by apply (proj1 Hw); rewrite Hh|].
    destruct (Ha h t Hh) as (d & Hd & Ht). exists d. split; [|done].
    unfold getNextNotificationInfo. unfold_M. by rewrite Hd.
  - intros Hi. apply map_eq. intros h. rewrite lookup_empty.
    destruct (timers w !! h) as [t|] eqn:Hh; [|done].
    destruct (Ha h t Hh) as (d & Hd & _).
    unfold getNextNotificationInfo in Hi. unfold_M. by rewrite Hd in Hi.
Qed.

Lemma X3_witness :
  run (rt := RefRuntime) [Schedule (At 5000) "first"]
    (boot (rt := RefRuntime) ∅ 1000 false false) = Some first_pending /\
  timers first_pending !! 1%positive
  = Some (MkTimeout (ScheduledCallback "first") (Num 4000) 1000) /\
  exists d,
    getNextNotificationInfo first_pending
    = (Ret (NextNotification d), first_pending) /\
    Num 5000 = getTime d.
Proof.
  assert (Hrun : run (rt := RefRuntime) [Schedule (At 5000) "first"]
                   (boot (rt := RefRuntime) ∅ 1000 false false)
                 = Some first_pending) by reflexivity.
  assert (Hh : timers first_pending !! 1%positive
               = Some (MkTimeout (ScheduledCallback "first") (Num 4000) 1000))
    by reflexivity.
  split; [exact Hrun|]. split; [exact Hh|].
  exact (proj2 (proj1 (X3_armed_timeout_is_the_reported_one
                         (rt := RefRuntime) ∅ 1000 false false _ _ Hrun)
                  1%positive _ Hh)).
Defined.

(** X4. [onload] returns normally whatever [localStorage] holds: every
    exception of [restoreScheduledNotifications] is caught. The clock is
    read and not changed, and [localStorage] is as before or has lost the
    item under [KEY]. *)
Theorem X4_loading_never_fails {rt : Runtime} (w : world) :
  exists w',
    onload w = (Ret tt, w') /\
    clock w' = clock w /\
    (localStorage w' = localStorage w \/
     localStorage w' = delete KEY (localStorage w)) /\
    exists r,
      restoreScheduledNotifications w = (Ret tt, r) /\
      w' = with_out (out r ++ [ConsoleLog LogLoaded]) r.
Proof.
  destruct (restore_shape w) as (r & E & Hr).
  exists (with_out (out r ++ [ConsoleLog LogLoaded]) r).
  split; [unfold onload; unfold_M; by rewrite E|].
  split; [|split; [|by exists r]].
  - destruct Hr as [[o ->]|[->|(data & d & T & _ & _ & ->)]]; done.
  - destruct Hr as [[o ->]|[->|(data & d & T & _ & _ & ->)]]; cbn; auto.
Qed.

(** X5. The plugin touches no item of [localStorage] but its own: through
    every run of scheduling, cancelling, firing, reloading and restarting,
    the item under any other key is what it was. *)
Theorem X5_only_its_own_key
    {rt : Runtime} (es : list event) (w w' : world) (k : string) :
  run es w = Some w' -> k <> KEY ->
  localStorage w' !! k = localStorage w !! k.
Proof.
  revert w. induction es as [|e es IH]; intros w; cbn.
  - by intros [= <-].
  - destruct (step e w) as [w1|] eqn:Hs; [|done]. intros Hrun Hk.
    rewrite (IH w1 Hrun Hk). by apply (step_other_keys e).
Qed.

Lemma X5_witness :
  exists w',
    run (rt := RefRuntime)
      [Schedule (At 5000) "first"; Tick 4000; Fire 1%positive; Cancel; Restart]
      (boot (rt := RefRuntime) {["theme" := "dark"]} 1000 false false)
    = Some w' /\
    localStorage w' !! "theme" = Some "dark"%string.
Proof.
  assert (Hk : "theme"%string <> KEY) by discriminate.
  destruct (run (rt := RefRuntime)
              [Schedule (At 5000) "first"; Tick 4000; Fire 1%positive; Cancel;
               Restart]
              (boot (rt := RefRuntime) {["theme" := "dark"]} 1000 false false))
    as [w'|] eqn:Hrun; [|vm_compute in Hrun; discriminate Hrun].
  exists w'. split; [reflexivity|].
  rewrite (X5_only_its_own_key (rt := RefRuntime) _ _ _ _ Hrun Hk).
  vm_compute. reflexivity.
Defined.

(** X6. A reminder outlives the process. After an accepted request for
    [T], when the plugin is reloaded or the application restarted before
    [T], exactly one timeout is armed, for the rest of the delay, with the
    record's message; when the host runs it at or after [T] the message
    that was scheduled is shown and the record is removed. *)
Theorem X6_reminder_survives_restart
    {rt : Runtime} (laws : RuntimeLaws rt)
    (ls : gmap string string) (now : Z) (g a : bool) (es : list event)
    (w : world) (T d : Z) (msg : string) (again : event) :
  run es (boot ls now g a) = Some w ->
  again = Reload \/ again = Restart ->
  valid_time T -> 0 <= d -> clock w + d < T ->
  exists w1 h,
    run [Schedule (At T) msg; Tick d; again] w = Some w1 /\
    timer w1 = Some h /\
    timers w1 =
      {[ h := MkTimeout
                (RestoredCallback
                   (persisted (toISOString_text T) msg
                              (toISOString_text (clock w))))
                (Num (T - (clock w + d))) (clock w + d) ]} /\
    nextNotificationTime w1 = Some (At T) /\
    forall d',
      0 <= d' -> T <= clock w + d + d' ->
      exists w2,
        run [Tick d'; Fire h] w1 = Some w2 /\
        out w2 = out w1 ++ shown msg (with_clock (clock w + d + d') w1) /\
        nextNotificationTime w2 = None /\
        timers w2 = ∅ /\
        localStorage w2 !! KEY = None.
Proof.
  intros Hrun Hag HT Hd Hlt.
  pose proof (run_well_formed es _ w (boot_well_formed ls now g a) Hrun) as Hw.
  destruct (scheduled_then_tick w T d msg Hw HT ltac:(lia) Hd)
    as (w2 & Hrun2 & Hw2 & Hc2 & Hl2 & Ho2 & Hg2 & Ha2).
  destruct (loaded_again again w2 Hw2 Hag) as (o & nh & Hstep & Ho).
  rewrite (onload_own_record_ahead _ T msg (toISOString_text (clock w)) HT)
    in Hstep; [|cbn; by rewrite Hl2, lookup_insert_eq|cbn; lia].
  change [Schedule (At T) msg; Tick d; again]
    with ([Schedule (At T) msg; Tick d] ++ [again]).
  eexists. exists nh. split; [by rewrite (run_then _ _ _ _ Hrun2)|].
  split; [done|]. split; [cbn; by rewrite Hc2|]. split; [done|].
  intros d' Hd' Hdue. cbn [run step]. destruct (Z.leb_spec 0 d'); [|lia].
  erewrite fire_own_record;
    [|cbn; apply lookup_insert_eq|
     unfold due; cbn; destruct (_ <=? maxDelay); lia].
  eexists. split; [reflexivity|]. cbn. rewrite Hc2. repeat split.
  - by rewrite delete_insert_eq, delete_empty.
  - apply lookup_delete_eq.
Qed.

Lemma X6_witness :
  run (rt := RefRuntime) [] (boot (rt := RefRuntime) ∅ 1000 false false)
  = Some fresh_start /\
  clock fresh_start + 2000 < 5000 /\
  exists w1 h,
    run (rt := RefRuntime) [Schedule (At 5000) "first"; Tick 2000; Restart]
      fresh_start = Some w1 /\
    timer w1 = Some h /\
    nextNotificationTime w1 = Some (At 5000) /\
    exists w2,
      run (rt := RefRuntime) [Tick 2000; Fire h] w1 = Some w2 /\
      localStorage w2 !! KEY = None.
Proof.
  assert (Hrun : run (rt := RefRuntime) []
                   (boot (rt := RefRuntime) ∅ 1000 false false)
                 = Some fresh_start) by reflexivity.
  assert (Hlt : clock fresh_start + 2000 < 5000) by reflexivity.
  assert (HT : valid_time 5000) by (split; intros E; discriminate E).
  assert (Hd : 0 <= 2000) by (intros E; discriminate E).
  split; [exact Hrun|]. split; [exact Hlt|].
  destruct (X6_reminder_survives_restart RefRuntime_laws ∅ 1000 false false
              [] fresh_start 5000 2000 "first" Restart Hrun
              (or_intror eq_refl) HT Hd Hlt)
    as (w1 & h & E & Ht & _ & Hn & Hfire).
  exists w1, h. split; [exact E|]. split; [exact Ht|]. split; [exact Hn|].
  destruct (Hfire 2000 Hd) as (w2 & E2 & _ & _ & _ & Hl).
  { intros C; discriminate C. }
  exists w2. split; [exact E2|exact Hl].
Defined.

(** X7. A reminder that comes due while the plugin is not loaded is lost.
    After an accepted request for [T], when the plugin is reloaded or the
    application restarted at or after [T] without the timeout having run,
    the record is removed as stale, nothing is armed or pending, and the
    message is never shown: the output gains the confirmation of the
    request and the log lines of unloading and loading only. *)
Theorem X7_missed_reminder_is_dropped
    {rt : Runtime} (laws : RuntimeLaws rt)
    (ls : gmap string string) (now : Z) (g a : bool) (es : list event)
    (w : world) (T d : Z) (msg : string) (again : event) :
  run es (boot ls now g a) = Some w ->
  again = Reload \/ again = Restart ->
  valid_time T -> clock w < T -> T <= clock w + d ->
  exists w1,
    run [Schedule (At T) msg; Tick d; again] w = Some w1 /\
    timers w1 = ∅ /\ timer w1 = None /\ nextNotificationTime w1 = None /\
    localStorage w1 !! KEY = None /\
    out w1 =
      out w ++ [ShowNotice (NoticeSetFor (At T))]
      ++ match again with
         | Reload => [ConsoleLog LogUnloaded]
         | _ => []
         end
      ++ [ConsoleLog LogLoaded].
Proof.
  intros Hrun Hag HT Hlt Hdue.
  pose proof (run_well_formed es _ w (boot_well_formed ls now g a) Hrun) as Hw.
  destruct (scheduled_then_tick w T d msg Hw HT Hlt ltac:(lia))
    as (w2 & Hrun2 & Hw2 & Hc2 & Hl2 & Ho2 & Hg2 & Ha2).
  destruct (loaded_again again w2 Hw2 Hag) as (o & nh & Hstep & Ho).
  rewrite (onload_own_record_behind _ T msg (toISOString_text (clock w)) HT)
    in Hstep; [|cbn; by rewrite Hl2, lookup_insert_eq|cbn; lia].
  change [Schedule (At T) msg; Tick d; again]
    with ([Schedule (At T) msg; Tick d] ++ [again]).
  eexists. split; [by rewrite (run_then _ _ _ _ Hrun2)|].
  cbn. repeat split; [apply lookup_delete_eq|].
  rewrite Ho, Ho2, <- !app_assoc. reflexivity.
Qed.

Lemma X7_witness :
  run (rt := RefRuntime) [] (boot (rt := RefRuntime) ∅ 1000 false false)
  = Some fresh_start /\
  5000 <= clock fresh_start + 6000 /\
  exists w1,
    run (rt := RefRuntime) [Schedule (At 5000) "first"; Tick 6000; Restart]
      fresh_start = Some w1 /\
    timers w1 = ∅ /\
    localStorage w1 !! KEY = None /\
    out w1 = out fresh_start
             ++ [ShowNotice (NoticeSetFor (At 5000)); ConsoleLog LogLoaded].
Proof.
  assert (Hrun : run (rt := RefRuntime) []
                   (boot (rt := RefRuntime) ∅ 1000 false false)
                 = Some fresh_start) by reflexivity.
  assert (Hlt : clock fresh_start < 5000) by reflexivity.
  assert (Hdue : 5000 <= clock fresh_start + 6000)
    by (intros E; discriminate E).
  assert (HT : valid_time 5000) by (split; intros E; discriminate E).
  split; [exact Hrun|]. split; [exact Hdue|].
  destruct (X7_missed_reminder_is_dropped RefRuntime_laws ∅ 1000 false false
              [] fresh_start 5000 6000 "first" Restart Hrun
              (or_intror eq_refl) HT Hlt Hdue)
    as (w1 & E & Ht & _ & _ & Hl & Ho).
  exists w1. split; [exact E|]. split; [exact Ht|]. split; [exact Hl|exact Ho].
Defined.

(** X8. In every state the plugin can reach, [onunload] leaves nothing
    armed, so the host can run no callback afterwards. It logs one line and
    keeps the record, the pending time and the handle in [timer] as they
    are. *)
Theorem X8_unload_disarms
    {rt : Runtime} (ls : gmap string string) (now : Z) (g a : bool)
    (es : list event) (w : world) :
  run es (boot ls now g a) = Some w ->
  exists w',
    onunload w = (Ret tt, w') /\
    timers w' = ∅ /\ (forall h, fire h w' = None) /\
    localStorage w' = localStorage w /\
    nextNotificationTime w' = nextNotificationTime w /\
    timer w' = timer w /\
    out w' = out w ++ [ConsoleLog LogUnloaded].
Proof.
  intros Hrun.
  pose proof (run_well_formed es _ w (boot_well_formed ls now g a) Hrun) as Hw.
  eexists. split; [by apply onunload_reached|]. cbn.
  repeat split.
Qed.

Lemma X8_witness :
  run (rt := RefRuntime) [Schedule (At 5000) "first"]
    (boot (rt := RefRuntime) ∅ 1000 false false) = Some first_pending /\
  is_Some (timers first_pending !! 1%positive) /\
  exists w',
    onunload first_pending = (Ret tt, w') /\
    timers w' = ∅ /\ localStorage w' = localStorage first_pending.
Proof.
  assert (Hrun : run (rt := RefRuntime) [Schedule (At 5000) "first"]
                   (boot (rt := RefRuntime) ∅ 1000 false false)
                 = Some first_pending) by reflexivity.
  split; [exact Hrun|]. split; [vm_compute; eauto|].
  destruct (X8_unload_disarms (rt := RefRuntime) ∅ 1000 false false _ _ Hrun)
    as (w' & E & Ht & _ & Hl & _).
  exists w'. split; [exact E|]. split; [exact Ht|exact Hl].
Defined.

(** X9. When the date and time texts of the dialog do not make a date,
    [schedule] throws the RangeError of [toISOString] with nothing saved
    and no notice shown, the settings tab reports an Invalid Date as
    pending, and the timeout that was armed with a delay of NaN is due at
    once: when the host runs it, the message is shown and the pending time
    is cleared. *)
Theorem X9_unparsed_date_fires_at_once
    {rt : Runtime} (w : world) (date time msg : string) :
  Date_parse (date +:+ "T" +:+ time) = NaN ->
  exists w1 w2,
    modal_schedule date time msg w = (Throw RangeError, w1) /\
    localStorage w1 = localStorage w /\ out w1 = out w /\
    getNextNotificationInfo w1 = (Ret (NextNotification InvalidDate), w1) /\
    fire (nextHandle w) w1 = Some w2 /\
    out w2 = out w ++ shown msg w /\
    nextNotificationTime w2 = None /\
    timers w2 !! nextHandle w = None /\
    localStorage w2 = localStorage w.
Proof.
  intros Hp. unfold modal_schedule. rewrite Hp.
  change (MkDate NaN) with InvalidDate.
  exists (armed_by_schedule InvalidDate msg w). eexists.
  split; [apply scheduleNotification_invalid|].
  split; [done|]. split; [done|]. split; [done|].
  split.
  { unfold fire. cbn [timers armed_by_schedule]. rewrite lookup_insert_eq.
    unfold due. cbn [armedAt delay getTime InvalidDate num_sub clock].
    rewrite Z.add_0_r, Z.leb_refl. unfold exec. cbn [handler].
    rewrite run_scheduled_callback. reflexivity. }
  cbn. repeat split. apply lookup_delete_eq.
Qed.

Lemma X9_witness :
  Date_parse (Runtime := RefRuntime) ("" +:+ "T" +:+ "12:00") = NaN /\
  exists w1 w2,
    modal_schedule (rt := RefRuntime) "" "12:00" "x" fresh_start
    = (Throw RangeError, w1) /\
    fire (rt := RefRuntime) (nextHandle fresh_start) w1 = Some w2 /\
    out w2 = out fresh_start ++ [ShowNotice (NoticeBell "x")].
Proof.
  assert (Hp : Date_parse (Runtime := RefRuntime) ("" +:+ "T" +:+ "12:00")
               = NaN) by reflexivity.
  split; [exact Hp|].
  destruct (X9_unparsed_date_fires_at_once (rt := RefRuntime)
              fresh_start "" "12:00" "x" Hp)
    as (w1 & w2 & E & _ & _ & _ & Hf & Ho & _).
  exists w1, w2. split; [exact E|]. split; [exact Hf|exact Ho].
Defined.

(** X10. The defaults of the dialog are turned down. The constructor fills
    in the UTC date and the local hour and minute; in a zone at or ahead of
    UTC, and in any zone while the UTC date is not after the local date,
    submitting the dialog unchanged asks for a time at or before the
    current minute, and [scheduleNotification] shows the notice that asks
    for a future time and changes nothing else. *)
Theorem X10_dialog_defaults_are_rejected (tz : Z) (w0 w : world) :
  -86400000 < tz < 86400000 ->
  - maxTime + 172800000 <= clock w0 <= maxTime - 172800000 ->
  0 <= tz \/ clock w0 / 86400000 <= (clock w0 + tz) / 86400000 ->
  clock w0 <= clock w ->
  exists r,
    ScheduleNotificationModal.constructor (rt := LocalRuntime tz) tz w0
    = (Ret r, w0) /\
    ScheduleNotificationModal.schedule (rt := LocalRuntime tz) r w
    = (Ret tt, with_out (out w ++ [ShowNotice NoticeChooseFuture]) w).
Proof.
  unfold maxTime. intros Htz Ht Hzone Hw.
  assert (Hday : clock w0 / 86400000 <= (clock w0 + tz) / 86400000).
  { destruct Hzone as [Hpos|Hday]; [|exact Hday].
    Z.div_mod_to_equations; lia. }
  destruct (LocalFacts.constructor_defaults tz w0) as (r & E & _ & Hp).
  { unfold valid_time, maxTime. lia. }
  exists r. split; [exact E|].
  unfold ScheduleNotificationModal.schedule, modal_schedule.
  change (Date_parse (Runtime := LocalRuntime tz))
    with (LocalTime.Date_parse tz).
  rewrite Hp, Date_of_number_valid.
  - apply scheduleNotification_past. Z.div_mod_to_equations; lia.
  - unfold valid_time, maxTime. Z.div_mod_to_equations; lia.
Qed.

Lemma X10_witness :
  0 <= 10800000 /\
  ScheduleNotificationModal.constructor (rt := LocalRuntime 10800000) 10800000
    dialog_opened
  = (Ret (ScheduleNotificationModal.MkResult "2024-05-02" "04:00"
            "Напоминание из Obsidian!"), dialog_opened) /\
  ScheduleNotificationModal.schedule (rt := LocalRuntime 10800000)
    (ScheduleNotificationModal.MkResult "2024-05-02" "04:00"
       "Напоминание из Obsidian!") dialog_opened
  = (Ret tt,
     with_out (out dialog_opened ++ [ShowNotice NoticeChooseFuture])
       dialog_opened).
Proof.
  assert (Hzone : 0 <= 10800000) by (intros E; discriminate E).
  split; [exact Hzone|].
  destruct (X10_dialog_defaults_are_rejected 10800000 dialog_opened
              dialog_opened) as (r & E & S).
  - split; reflexivity.
  - unfold maxTime. cbn. lia.
  - left. exact Hzone.
  - cbn. lia.
  - assert (E' : ScheduleNotificationModal.constructor
                   (rt := LocalRuntime 10800000) 10800000 dialog_opened
                 = (Ret (ScheduleNotificationModal.MkResult "2024-05-02"
                           "04:00" "Напоминание из Obsidian!"),
                    dialog_opened)) by (vm_compute; reflexivity).
    rewrite E' in E. injection E as <-. split; [exact E'|exact S].
Defined.

(** X11. Behind UTC, once the UTC date has moved on to the next day, the
    defaults of the dialog name the local time of day on the UTC date:
    submitting the dialog unchanged, at any moment before that time,
    schedules a reminder for the start of the current minute one day
    later. *)
Theorem X11_dialog_defaults_a_day_ahead (tz : Z) (w0 w : world) :
  -86400000 < tz < 86400000 ->
  - maxTime + 172800000 <= clock w0 <= maxTime - 172800000 ->
  (clock w0 + tz) / 86400000 < clock w0 / 86400000 ->
  clock w < clock w0 + 86400000 - (clock w0 + tz) mod 60000 ->
  exists r,
    ScheduleNotificationModal.constructor (rt := LocalRuntime tz) tz w0
    = (Ret r, w0) /\
    ScheduleNotificationModal.schedule (rt := LocalRuntime tz) r w
    = (Ret tt,
       with_out
         (out w ++
          [ShowNotice
             (NoticeSetFor
                (At (clock w0 + 86400000 - (clock w0 + tz) mod 60000)))])
         (with_localStorage
            (<[KEY := Ref.stringify
                        (persisted
                           (Ref.toISOString_text
                              (clock w0 + 86400000
                               - (clock w0 + tz) mod 60000))
                           "Напоминание из Obsidian!"
                           (Ref.toISOString_text (clock w)))]>
               (localStorage w))
            (armed_by_schedule
               (At (clock w0 + 86400000 - (clock w0 + tz) mod 60000))
               "Напоминание из Obsidian!" w))) /\
    clock w0 + 86400000 - 60000
    < clock w0 + 86400000 - (clock w0 + tz) mod 60000
    <= clock w0 + 86400000.
Proof.
  unfold maxTime. intros Htz Ht Hday Hw.
  destruct (LocalFacts.constructor_defaults tz w0) as (r & E & Hm & Hp).
  { unfold valid_time, maxTime. lia. }
  exists r. split; [exact E|]. split; [|Z.div_mod_to_equations; lia].
  unfold ScheduleNotificationModal.schedule, modal_schedule.
  change (Date_parse (Runtime := LocalRuntime tz))
    with (LocalTime.Date_parse tz).
  rewrite Hp, Hm.
  replace (clock w0
           + (clock w0 / 86400000 - (clock w0 + tz) / 86400000) * 86400000
           - (clock w0 + tz) mod 60000)
    with (clock w0 + 86400000 - (clock w0 + tz) mod 60000)
    by (Z.div_mod_to_equations; lia).
  rewrite Date_of_number_valid.
  - by apply (scheduleNotification_future (rt := LocalRuntime tz)).
  - unfold valid_time, maxTime. Z.div_mod_to_equations; lia.
Qed.

Lemma X11_witness :
  (clock dialog_opened + -18000000) / 86400000
  < clock dialog_opened / 86400000 /\
  ScheduleNotificationModal.constructor (rt := LocalRuntime (-18000000))
    (-18000000) dialog_opened
  = (Ret (ScheduleNotificationModal.MkResult "2024-05-02" "20:00"
            "Напоминание из Obsidian!"), dialog_opened) /\
  exists w',
    ScheduleNotificationModal.schedule (rt := LocalRuntime (-18000000))
      (ScheduleNotificationModal.MkResult "2024-05-02" "20:00"
         "Напоминание из Obsidian!") dialog_opened
    = (Ret tt, w') /\
    nextNotificationTime w' = Some (At (1714611630000 + 86400000 - 30000)).
Proof.
  assert (Hday : (clock dialog_opened + -18000000) / 86400000
                 < clock dialog_opened / 86400000)
    by (vm_compute; reflexivity).
  split; [exact Hday|].
  destruct (X11_dialog_defaults_a_day_ahead (-18000000) dialog_opened
              dialog_opened) as (r & E & S & _).
  - split; reflexivity.
  - unfold maxTime. cbn. lia.
  - exact Hday.
  - vm_compute. reflexivity.
  - assert (E' : ScheduleNotificationModal.constructor
                   (rt := LocalRuntime (-18000000)) (-18000000) dialog_opened
                 = (Ret (ScheduleNotificationModal.MkResult "2024-05-02"
                           "20:00" "Напоминание из Obsidian!"),
                    dialog_opened)) by (vm_compute; reflexivity).
    rewrite E' in E. injection E as <-. split; [exact E'|].
    eexists. split; [exact S|]. reflexivity.
Defined.



(** X13. The dialog schedules for the local time that is typed in. With a
    date [YYYY-MM-DD] and a time [HH:mm] of the calendar in its fields,
    [schedule] is [scheduleNotification] at that day, hour and minute of
    the local zone, with the message of the third field. *)
Theorem X13_dialog_schedules_the_local_time
    (tz : Z) (w : world) (r0 : ScheduleNotificationModal.result)
    (y m d h mi : Z) :
  0 <= y <= 9999 -> 1 <= m <= 12 -> 1 <= d <= Ref.days_in_month y m ->
  0 <= h <= 23 -> 0 <= mi <= 59 ->
  valid_time (Ref.days_of_civil y m d * 86400000 + h * 3600000 + mi * 60000
              - tz) ->
  ScheduleNotificationModal.schedule (rt := LocalRuntime tz)
    (ScheduleNotificationModal.onChange_time
       (Ref.pad2 h +:+ ":" +:+ Ref.pad2 mi)
       (ScheduleNotificationModal.onChange_date
          (Ref.pad4 y +:+ "-" +:+ Ref.pad2 m +:+ "-" +:+ Ref.pad2 d) r0)) w
  = scheduleNotification (rt := LocalRuntime tz)
      (At (Ref.days_of_civil y m d * 86400000 + h * 3600000 + mi * 60000
           - tz))
      (ScheduleNotificationModal.message r0) w.
Proof.
  intros Hy Hm Hd Hh Hmi HT.
  unfold ScheduleNotificationModal.schedule, modal_schedule.
  cbn [ScheduleNotificationModal.onChange_time
       ScheduleNotificationModal.onChange_date
       ScheduleNotificationModal.date ScheduleNotificationModal.time
       ScheduleNotificationModal.message].
  change (Date_parse (Runtime := LocalRuntime tz))
    with (LocalTime.Date_parse tz).
  by rewrite LocalFacts.typed_text, Date_of_number_valid.
Qed.

Lemma X13_witness :
  exists w',
    ScheduleNotificationModal.schedule (rt := LocalRuntime 10800000)
      (ScheduleNotificationModal.MkResult "2030-01-15" "09:30" "call")
      dialog_opened
    = (Ret tt, w') /\
    nextNotificationTime w' = Some (At 1894689000000) /\
    Ref.toISOString_text 1894689000000 = "2030-01-15T06:30:00.000Z"%string.
Proof.
  assert (Hy : 0 <= 2030 <= 9999) by (split; intros C; discriminate C).
  assert (Hm : 1 <= 1 <= 12) by (split; intros C; discriminate C).
  assert (Hd : 1 <= 15 <= Ref.days_in_month 2030 1)
    by (split; intros C; discriminate C).
  assert (Hh : 0 <= 9 <= 23) by (split; intros C; discriminate C).
  assert (Hmi : 0 <= 30 <= 59) by (split; intros C; discriminate C).
  assert (HT : valid_time (Ref.days_of_civil 2030 1 15 * 86400000
                           + 9 * 3600000 + 30 * 60000 - 10800000))
    by (split; intros C; discriminate C).
  pose proof (X13_dialog_schedules_the_local_time 10800000 dialog_opened
                (ScheduleNotificationModal.MkResult "" "" "call")
                2030 1 15 9 30 Hy Hm Hd Hh Hmi HT) as E.
  exists (exec (scheduleNotification (rt := LocalRuntime 10800000)
                  (At 1894689000000) "call") dialog_opened).
  split; [|split; vm_compute; reflexivity].
  etransitivity; [exact E|]. vm_compute. reflexivity.
Defined.

(** X14. Cancelling is final. In every state reached from a start that
    found no record or one that [scheduleNotification] wrote, after the
    cancel button nothing is armed or pending and there is no record, and a
    later reload or restart arms nothing. *)
Theorem X14_cancel_is_final
    {rt : Runtime} (laws : RuntimeLaws rt)
    (ls : gmap string string) (now : Z) (g a : bool) (es : list event)
    (w : world) (d : Z) (again : event) :
  clean ls -> run es (boot ls now g a) = Some w ->
  again = Reload \/ again = Restart -> 0 <= d ->
  exists w1 w2,
    step Cancel w = Some w1 /\
    timers w1 = ∅ /\ nextNotificationTime w1 = None /\
    localStorage w1 !! KEY = None /\
    run [Tick d; again] w1 = Some w2 /\
    timers w2 = ∅ /\ timer w2 = None /\ nextNotificationTime w2 = None /\
    localStorage w2 !! KEY = None.
Proof.
  intros Hclean Hrun Hag Hd.
  pose proof (run_well_formed es _ w (boot_well_formed ls now g a) Hrun) as Hw.
  assert (Hs : settled w).
  { apply (settled_run es (boot ls now g a)); [|done]. by apply settled_onload. }
  assert (Hc : step Cancel w = Some (exec cancel w)) by reflexivity.
  pose proof (proj1 (proj2 (step_advances _ _ _ Hc)) Hw) as Hw1.
  pose proof (settled_step _ _ _ Hs Hc) as Hs1.
  assert (Hnull : timer (exec cancel w) = None).
  { unfold exec. destruct (timer w) as [h|] eqn:Ht.
    - by rewrite (cancel_handle w h Ht).
    - by rewrite (cancel_null w Ht). }
  pose proof (slot_cleared _ Hw1) as He. rewrite Hnull in He.
  pose proof (proj2 (proj2 Hw1) Hnull) as Hn.
  pose proof (proj2 Hs1 Hnull) as Hk.
  assert (Ht : run [Tick d] (exec cancel w)
               = Some (with_clock (clock (exec cancel w) + d) (exec cancel w))).
  { cbn [run step]. by destruct (Z.leb_spec 0 d); [|lia]. }
  destruct (loaded_again again
              (with_clock (clock (exec cancel w) + d) (exec cancel w)))
    as (o' & nh' & Hstep' & _); [done|done|].
  rewrite onload_absent in Hstep' by done.
  change [Tick d; again] with ([Tick d] ++ [again]).
  exists (exec cancel w). eexists.
  split; [done|]. split; [done|]. split; [done|]. split; [done|].
  split; [rewrite (run_then _ _ _ _ Ht); exact Hstep'|]. done.
Qed.

Lemma X14_witness :
  clean (rt := RefRuntime) ∅ /\
  run (rt := RefRuntime) [Schedule (At 5000) "first"]
    (boot (rt := RefRuntime) ∅ 1000 false false) = Some first_pending /\
  is_Some (localStorage first_pending !! KEY) /\
  exists w1 w2,
    step (rt := RefRuntime) Cancel first_pending = Some w1 /\
    localStorage w1 !! KEY = None /\
    run (rt := RefRuntime) [Tick 1000; Restart] w1 = Some w2 /\
    timers w2 = ∅.
Proof.
  assert (Hclean : clean (rt := RefRuntime) ∅) by (left; reflexivity).
  assert (Hrun : run (rt := RefRuntime) [Schedule (At 5000) "first"]
                   (boot (rt := RefRuntime) ∅ 1000 false false)
                 = Some first_pending) by reflexivity.
  assert (Hd : 0 <= 1000) by (intros E; discriminate E).
  split; [exact Hclean|]. split; [exact Hrun|]. split; [vm_compute; eauto|].
  destruct (X14_cancel_is_final RefRuntime_laws ∅ 1000 false false _ _ 1000
              Restart Hclean Hrun (or_intror eq_refl) Hd)
    as (w1 & w2 & E1 & _ & _ & Hk & E2 & Ht & _).
  exists w1, w2. split; [exact E1|]. split; [exact Hk|].
  split; [exact E2|exact Ht].
Defined.
